(** * Okta Terraform provider: user reconciler, status mapping, app filter

    Shallow embedding of
      - okta/resource_okta_user.go  (create / read / update / delete of a user)
      - okta/app_filter.go          (application search filter)
    and the properties of the specification that can be stated over it.

    Remote operations are modelled as calls to an oracle [client] that
    answers from the history of events so far; every call and every write of
    the resource identifier is appended to a trace. Logging is not
    modelled. *)

From Stdlib Require Import Ascii String List ZArith.
From stdpp Require Import base strings gmap list.
From stdpp Require Import sorting.

Open Scope string_scope.
Open Scope list_scope.

(** ** Constants *)

(** Modelled from the spec: the status constants are declared outside src/
    (the spec names STAGED, ACTIVE, SUSPENDED, DEPROVISIONED, PROVISIONED,
    PASSWORD_EXPIRED and RECOVERY). *)
Definition statusActive : string := "ACTIVE".
Definition userStatusStaged : string := "STAGED".
Definition userStatusSuspended : string := "SUSPENDED".
Definition userStatusDeprovisioned : string := "DEPROVISIONED".
Definition userStatusProvisioned : string := "PROVISIONED".
Definition userStatusPasswordExpired : string := "PASSWORD_EXPIRED".
Definition userStatusRecovery : string := "RECOVERY".

(** The character U+0022, for the format strings that contain it. *)
Definition dquote : string := String "034"%char EmptyString.

(** ** schema.ResourceData

    A resource carries its identifier, the prior state and the new values.
    Attributes are kept per schema type; an attribute that is not set reads
    as the zero value of its type, as [d.Get] does. *)

(** One block of the [password_hash] attribute (lines 337-371). *)
Record hashBlock := {
  hbAlgorithm : string;
  hbWorkFactor : Z;
  hbSalt : string;
  hbSaltOrder : string;
  hbValue : string;
}.

#[global] Instance hashBlock_eq_dec : EqDecision hashBlock.
Proof. solve_decision. Defined.

Record attrs := {
  aStrings : gmap string string;
  aBools : gmap string bool;
  aSets : gmap string (gset string);
  aBlocks : gmap string (list hashBlock);
}.

Record ResourceData := {
  rdId : string;
  rdState : attrs;
  rdNew : attrs;
}.

Definition getString (a : attrs) (k : string) : string := default EmptyString (aStrings a !! k).
Definition getBool (a : attrs) (k : string) : bool := default false (aBools a !! k).
Definition getSet (a : attrs) (k : string) : gset string := default ∅ (aSets a !! k).
Definition getBlocks (a : attrs) (k : string) : list hashBlock := default [] (aBlocks a !! k).

(** [d.Get(k).(string)], [d.Get(k).(bool)], [d.Get(k).( *schema.Set)]. *)
Definition GetS (d : ResourceData) (k : string) : string := getString (rdNew d) k.
Definition GetB (d : ResourceData) (k : string) : bool := getBool (rdNew d) k.
Definition GetSet (d : ResourceData) (k : string) : gset string := getSet (rdNew d) k.
Definition GetBlocks (d : ResourceData) (k : string) : list hashBlock := getBlocks (rdNew d) k.

(** [d.GetOk(k)]: the value, and whether it differs from the zero value. *)
Definition GetOkS (d : ResourceData) (k : string) : string * bool :=
  (GetS d k, bool_decide (GetS d k ≠ EmptyString)).
Definition GetOkB (d : ResourceData) (k : string) : bool * bool :=
  (GetB d k, GetB d k).
Definition GetOkSet (d : ResourceData) (k : string) : gset string * bool :=
  (GetSet d k, bool_decide (GetSet d k ≠ ∅)).

(** [d.GetChange(k)]: the prior and the new value. *)
Definition GetChangeS (d : ResourceData) (k : string) : string * string :=
  (getString (rdState d) k, getString (rdNew d) k).
Definition GetChangeSet (d : ResourceData) (k : string) : gset string * gset string :=
  (getSet (rdState d) k, getSet (rdNew d) k).

(** [d.HasChange(k)]: the prior and the new value differ. *)
Definition HasChangeS (d : ResourceData) (k : string) : bool :=
  bool_decide (getString (rdState d) k ≠ getString (rdNew d) k).
Definition HasChangeSet (d : ResourceData) (k : string) : bool :=
  bool_decide (getSet (rdState d) k ≠ getSet (rdNew d) k).
Definition HasChangeBlocks (d : ResourceData) (k : string) : bool :=
  bool_decide (getBlocks (rdState d) k ≠ getBlocks (rdNew d) k).

(** [d.SetId(id)] and [d.Set(k, v)] for a string attribute. *)
Definition SetId (id : string) (d : ResourceData) : ResourceData :=
  {| rdId := id; rdState := rdState d; rdNew := rdNew d |}.

Definition SetS (k v : string) (d : ResourceData) : ResourceData :=
  {| rdId := rdId d;
     rdState := rdState d;
     rdNew := {| aStrings := <[k := v]> (aStrings (rdNew d));
                 aBools := aBools (rdNew d);
                 aSets := aSets (rdNew d);
                 aBlocks := aBlocks (rdNew d) |} |}.

(** Results of fallible functions: [Err] carries the message of the
    returned error or diagnostic. *)
Inductive result (A : Type) : Type :=
| Ok (a : A)
| Err (msg : string).
Arguments Ok {A} a.
Arguments Err {A} msg.

(** ** okta/app_filter.go *)

Module AppFilter.

Record appFilters := {
  Status : string;
  ID : string;
  Label : string;
  LabelPrefix : string;
}.

(** [func (f *appFilters) getQ() string] (lines 21-26). *)
Definition getQ (f : appFilters) : string :=
  if bool_decide (Label f ≠ EmptyString) then Label f else LabelPrefix f.

(** [fmt.Sprintf(`status eq "%s"`, statusActive)] (line 63). *)
Definition statusEq : string :=
  "status eq " +:+ dquote +:+ statusActive +:+ dquote.

Definition missingCriteria : string :=
  "you must provide either a 'label_prefix', 'id', or 'label' for application search".

(** [func getAppFilters(d *schema.ResourceData) ( *appFilters, error)]
    (lines 57-69). *)
Definition getAppFilters (d : ResourceData) : result appFilters :=
  let id := GetS d "id" in
  let label := GetS d "label" in
  let labelPrefix := GetS d "label_prefix" in
  let filters :=
    {| Status := EmptyString; ID := id; Label := label; LabelPrefix := labelPrefix |} in
  let filters :=
    if GetB d "active_only"
    then {| Status := statusEq; ID := ID filters; Label := Label filters;
            LabelPrefix := LabelPrefix filters |}
    else filters in
  if bool_decide (id = EmptyString) && bool_decide (label = EmptyString)
     && bool_decide (labelPrefix = EmptyString)
  then Err missingCriteria
  else Ok filters.

End AppFilter.

(** ** Status normalisation (okta/resource_okta_user.go) *)

(** [func mapStatus(currentStatus string) string] (lines 721-727). *)
Definition mapStatus (currentStatus : string) : string :=
  if bool_decide (currentStatus = userStatusPasswordExpired)
     || bool_decide (currentStatus = userStatusRecovery)
  then statusActive
  else currentStatus.

(** The [DiffSuppressFunc] of the [status] attribute (lines 251-253). *)
Definition statusDiffSuppress (old new : string) : bool :=
  bool_decide (old = userStatusProvisioned) && bool_decide (new = statusActive)
  || bool_decide (old = userStatusPasswordExpired) && bool_decide (new = statusActive).

(** ** Schema validation of the credential attributes

    The schema of the user resource (lines 285-372) declares, for the
    credential attributes, which other attributes each one conflicts with
    or requires. The plugin SDK checks both declarations for every
    attribute that a configuration supplies. Its checks of the value of a
    single attribute ([ValidateDiagFunc], [MaxItems]) do not depend on which
    attributes are supplied together; they are not part of the model, in
    which a configuration is the set of the attributes it supplies. *)

Record Schema := {
  ConflictsWith : list string;
  RequiredWith : list string;
}.

Definition credentialSchema : list (string * Schema) :=
  [ ("password", {| ConflictsWith := []; RequiredWith := [] |});
    ("expire_password_on_create",
       {| ConflictsWith := []; RequiredWith := ["password"] |});
    ("password_inline_hook",
       {| ConflictsWith := ["password"; "password_hash"]; RequiredWith := [] |});
    ("old_password", {| ConflictsWith := []; RequiredWith := [] |});
    ("password_hash", {| ConflictsWith := []; RequiredWith := [] |}) ].

(** The check the plugin SDK runs for [ConflictsWith] on a configuration,
    given as the set of attributes it supplies: an attribute that is
    supplied fails validation with the first attribute of its
    [ConflictsWith] list that is supplied too. *)
Definition validateConflictingAttributes
    (k : string) (schema : Schema) (c : gset string) : list string :=
  match filter (λ other, other ∈ c) (ConflictsWith schema) with
  | [] => []
  | conflictingKey :: _ =>
      [dquote +:+ k +:+ dquote +:+ ": conflicts with " +:+ conflictingKey]
  end.

(** The [ConflictsWith] check alone, for every supplied attribute of a
    schema. *)
Definition validateConflicts (m : list (string * Schema)) (c : gset string) : list string :=
  flat_map (λ '(k, schema),
              if bool_decide (k ∈ c) then validateConflictingAttributes k schema c else [])
           m.

(** [sort.Strings] and [removeDuplicates], for the message of the
    [RequiredWith] check. *)
Fixpoint insertSorted (x : string) (l : list string) : list string :=
  match l with
  | [] => [x]
  | y :: rest => if String.leb x y then x :: l else y :: insertSorted x rest
  end.

Definition sortStrings (l : list string) : list string := foldr insertSorted [] l.

Fixpoint joinWith (sep : string) (l : list string) : string :=
  match l with
  | [] => EmptyString
  | [x] => x
  | x :: rest => x +:+ sep +:+ joinWith sep rest
  end.

(** The check the plugin SDK runs for [RequiredWith]: an attribute that is
    supplied fails validation when an attribute of its [RequiredWith] list
    is not supplied. *)
Definition validateRequiredWithAttribute
    (k : string) (schema : Schema) (c : gset string) : list string :=
  match filter (λ other, other ∉ c) (RequiredWith schema) with
  | [] => []
  | _ :: _ =>
      let allKeys := sortStrings (remove_dups (RequiredWith schema ++ [k])) in
      [dquote +:+ k +:+ dquote +:+ ": all of `" +:+ joinWith "," allKeys
       +:+ "` must be specified"]
  end.

(** The two checks of one supplied attribute: [RequiredWith] first, and
    [ConflictsWith] only when that one passed. *)
Definition validateAttribute (k : string) (schema : Schema) (c : gset string) : list string :=
  match validateRequiredWithAttribute k schema c with
  | [] => validateConflictingAttributes k schema c
  | errs => errs
  end.

(** Validation of a configuration against a schema: the checks of every
    attribute that the configuration supplies. *)
Definition Validate (m : list (string * Schema)) (c : gset string) : list string :=
  flat_map (λ '(k, schema),
              if bool_decide (k ∈ c) then validateAttribute k schema c else [])
           m.

(** ** Types of the Okta SDK used by the user resource *)

(** Modelled from the spec: [okta.UserProfile] and [populateUserProfile]
    are declared outside src/; the profile is a mapping of named string
    attributes, and how it is built from the resource is a parameter of
    the development. *)
Definition UserProfile : Type := gmap string string.

Record PasswordCredentialHash := {
  Algorithm : string;
  Salt : string;
  SaltOrder : string;
  HashValue : string;
  WorkFactor : Z;
}.

Record PasswordCredentialHook := { HookType : string }.

Record PasswordCredential := {
  Hash : option PasswordCredentialHash;
  Hook : option PasswordCredentialHook;
  Value : string;
}.

Record RecoveryQuestionCredential := {
  Answer : string;
  Question : string;
}.

Record UserCredentials := {
  Password : option PasswordCredential;
  RecoveryQuestion : option RecoveryQuestionCredential;
}.

Record User := {
  userId : string;
  userStatus : string;
  userProfile : option UserProfile;
  userCredentials : option UserCredentials;
}.

Record CreateUserRequest := {
  reqProfile : UserProfile;
  reqCredentials : UserCredentials;
}.

Record ChangePasswordRequest := {
  OldPassword : PasswordCredential;
  NewPassword : PasswordCredential;
}.

Record Role := {
  roleId : string;
  roleType : string;
}.

(** [query.NewQueryParams()] leaves [activate] unset;
    [query.WithActivate(b)] sets it. *)
Record QueryParams := { Activate : option bool }.

(** ** Remote operations

    The operations of the SDK client, and the helpers of the provider that
    are declared outside src/ and reach the remote system (or write the
    fetched values into the resource); a helper is one opaque operation. *)
Inductive call : Type :=
| CreateUser (body : CreateUserRequest) (qp : QueryParams)
| GetUser (id : string)
| UpdateUser (id : string) (body : User)
| ChangePassword (id : string) (req : ChangePasswordRequest)
| ChangeRecoveryQuestion (id : string) (creds : UserCredentials)
| ExpirePassword (id : string)
| RemoveRoleFromUser (id : string) (role : string)
| DeactivateOrDeleteUser (id : string)
| assignAdminRolesToUser (id : string) (roles : list string) (disableNotifications : bool)
| assignGroupsToUser (id : string) (groups : list string)
| updateUserStatus (id : string) (status : string)
| listUserOnlyRoles (id : string)
| addUserToGroups (id : string) (groups : list string)
| removeUserFromGroups (id : string) (groups : list string)
| setNonPrimitives (user : User)
| setAdminRoles (id : string)
| setGroupUserMemberships (id : string).

(** What a call returns: its value, or an error together with the HTTP
    status code of the response. *)
Inductive outcome (A : Type) : Type :=
| Success (a : A)
| Failure (statusCode : nat) (err : string).
Arguments Success {A} a.
Arguments Failure {A} statusCode err.

(** The value a call returns when it succeeds. *)
Definition payload (c : call) : Type :=
  match c with
  | CreateUser _ _ | GetUser _ => User
  | listUserOnlyRoles _ => list Role
  | _ => unit
  end.

Definition resp (c : call) : Type := outcome (payload c).

(** An event of the trace: a call with its answer, or a write of the
    resource identifier. *)
Inductive event : Type :=
| Called (c : call) (r : resp c)
| IdSet (id : string).

(** *** Observations on events *)

Definition callOf (e : event) : option call :=
  match e with
  | Called c _ => Some c
  | IdSet _ => None
  end.

(** The HTTP status code of a call that failed. *)
Definition failureCode (e : event) : option nat :=
  match e with
  | Called _ (Failure statusCode _) => Some statusCode
  | _ => None
  end.

(** The user and role of a role-removal call. *)
Definition removedRole (e : event) : option (string * string) :=
  match e with
  | Called (RemoveRoleFromUser id role) _ => Some (id, role)
  | _ => None
  end.

Definition isRoleRemoval (e : event) : bool :=
  match e with
  | Called (RemoveRoleFromUser _ _) _ => true
  | _ => false
  end.

Definition isRoleAddition (e : event) : bool :=
  match e with
  | Called (assignAdminRolesToUser _ _ _) _ => true
  | _ => false
  end.

(** The roles a successful listing call returned. *)
Definition listedRoles (e : event) : option (string * list Role) :=
  match e with
  | Called c r =>
      match c return resp c → option (string * list Role) with
      | listUserOnlyRoles id => λ r,
          match r with
          | Success roles => Some (id, roles)
          | Failure _ _ => None
          end
      | _ => λ _, None
      end r
  | IdSet _ => None
  end.

(** The events of [resourceUserRead]: fetching the user, writing what was
    fetched into the resource, clearing the identifier. *)
Definition isReadEvent (e : event) : bool :=
  match e with
  | Called (GetUser _) _ | Called (setNonPrimitives _) _
  | Called (setAdminRoles _) _ | Called (setGroupUserMemberships _) _ => true
  | IdSet _ => true
  | _ => false
  end.

Definition isDeleteCall (e : event) : bool :=
  match e with
  | Called (DeactivateOrDeleteUser _) _ => true
  | _ => false
  end.

Definition isUpdateUser (e : event) : bool :=
  match e with
  | Called (UpdateUser _ _) _ => true
  | _ => false
  end.

Definition isChangePassword (e : event) : bool :=
  match e with
  | Called (ChangePassword _ _) _ => true
  | _ => false
  end.

Definition isCreateCall (e : event) : bool :=
  match e with
  | Called (CreateUser _ _) _ => true
  | _ => false
  end.

(** The follow-up steps of a create: assigning roles and groups, changing
    the status, expiring the password. *)
Definition isFollowUp (e : event) : bool :=
  match e with
  | Called (assignAdminRolesToUser _ _ _) _ | Called (assignGroupsToUser _ _) _
  | Called (updateUserStatus _ _) _ | Called (ExpirePassword _) _ => true
  | _ => false
  end.

(** The remote system answers a call from the events so far. *)
Definition Client : Type := list event → ∀ c : call, resp c.

(** ** The reconciler monad: resource data, trace, early return *)

Record world := {
  wData : ResourceData;
  wTrace : list event;
}.

Definition M (A : Type) : Type := world → world * result A.

#[global] Instance M_ret : MRet M := λ A a w, (w, Ok a).

#[global] Instance M_bind : MBind M := λ A B f m w,
  match m w with
  | (w', Ok a) => f a w'
  | (w', Err e) => (w', Err e)
  end.

(** [return diag.Errorf(...)] and [return diag.FromErr(err)]. *)
Definition fail {A : Type} (msg : string) : M A := λ w, (w, Err msg).

(** An early return guarded by a condition. *)
Definition failIf (b : bool) (msg : string) : M unit :=
  if b then fail msg else mret tt.

(** A step guarded by a condition. *)
Definition when (b : bool) (m : M unit) : M unit :=
  if b then m else mret tt.

Definition getData : M ResourceData := λ w, (w, Ok (wData w)).

Definition invoke (client : Client) (c : call) : M (resp c) := λ w,
  let r := client (wTrace w) c in
  ({| wData := wData w; wTrace := wTrace w ++ [Called c r] |}, Ok r).

Definition setId (id : string) : M unit := λ w,
  ({| wData := SetId id (wData w); wTrace := wTrace w ++ [IdSet id] |}, Ok tt).

Definition setString (k v : string) : M unit := λ w,
  ({| wData := SetS k v (wData w); wTrace := wTrace w |}, Ok tt).

(** [if err != nil { return diag.Errorf(prefix + "%v", err) }]. *)
Definition orFail {A : Type} (prefix : string) (r : outcome A) : M A :=
  match r with
  | Success a => mret a
  | Failure _ err => fail (prefix +:+ err)
  end.

(** ** okta/resource_okta_user.go *)

(** [var profileKeys] (lines 17-53). *)
Definition profileKeys : list string :=
  [ "city"; "cost_center"; "country_code"; "custom_profile_attributes";
    "department"; "display_name"; "division"; "email"; "employee_number";
    "first_name"; "honorific_prefix"; "honorific_suffix"; "last_name";
    "locale"; "login"; "manager"; "manager_id"; "middle_name";
    "mobile_phone"; "nick_name"; "organization"; "postal_address";
    "preferred_language"; "primary_phone"; "profile_url"; "second_email";
    "state"; "street_address"; "timezone"; "title"; "user_type"; "zip_code";
    "password"; "recovery_question"; "recovery_answer" ].

(** [func hasProfileChange(d *schema.ResourceData) bool] (lines 696-703). *)
Definition hasProfileChange (d : ResourceData) : bool :=
  existsb (HasChangeS d) profileKeys.

(** [func buildPasswordCredentialHash(rawPasswordHash interface{})]
    (lines 676-691); the set holds at most one block. *)
Definition buildPasswordCredentialHash
    (rawPasswordHash : list hashBlock) : option PasswordCredentialHash :=
  match rawPasswordHash with
  | [] => None
  | hash :: _ =>
      Some {| Algorithm := hbAlgorithm hash;
              HashValue := hbValue hash;
              WorkFactor := hbWorkFactor hash;
              Salt := hbSalt hash;
              SaltOrder := hbSaltOrder hash |}
  end.

(** Modelled from the spec: [suppressErrorOn404] is declared outside src/;
    a "not found" response is treated as benign and absorbed, any other
    error is passed on. The result is the error that remains, if any. *)
Definition suppressErrorOn404 {A : Type} (r : outcome A) : option string :=
  match r with
  | Success _ => None
  | Failure statusCode err => if bool_decide (statusCode = 404) then None else Some err
  end.

(** Modelled from the spec: [contains] is declared outside src/; it tests
    whether a role type is a member of the delta computed for removal. *)
Definition contains (l : list string) (x : string) : bool := bool_decide (x ∈ l).

(** The credentials of the create request (lines 387-408). *)
Definition createCredentials (d : ResourceData) : UserCredentials :=
  let uc :=
    {| Password := Some {| Value := GetS d "password";
                           Hash := buildPasswordCredentialHash (GetBlocks d "password_hash");
                           Hook := None |};
       RecoveryQuestion := None |} in
  let pih := GetS d "password_inline_hook" in
  let uc :=
    if bool_decide (pih ≠ EmptyString)
    then {| Password := Some {| Hook := Some {| HookType := pih |};
                                Hash := None;
                                Value := EmptyString |};
            RecoveryQuestion := RecoveryQuestion uc |}
    else uc in
  let recoveryQuestion := GetS d "recovery_question" in
  let recoveryAnswer := GetS d "recovery_answer" in
  if bool_decide (recoveryQuestion ≠ EmptyString)
  then {| Password := Password uc;
          RecoveryQuestion := Some {| Question := recoveryQuestion;
                                      Answer := recoveryAnswer |} |}
  else uc.

(** The query parameters of the create request (lines 380-385). *)
Definition createQueryParams (d : ResourceData) : QueryParams :=
  if bool_decide (GetS d "status" = userStatusStaged)
  then {| Activate := Some false |}
  else {| Activate := None |}.

Definition stagedUpdateError : string :=
  "Okta will not allow a user to be updated to STAGED. Can set to STAGED on user creation only".

Definition provisionedPasswordError : string :=
  "can not change password for provisioned user, the activation workflow should be "
  +:+ "finished first. Please, check this diagram https://developer.okta.com/docs/reference/api/users/#user-status for more clarity.".

Definition deprovisionedUpdateError : string :=
  "Only the status of a DEPROVISIONED user can be updated, we detected other change".

(** [schema.Set.List()] followed by [convertInterfaceArrToStringArr]:
    the members of a set as a list. The SDK orders them by the hash code of
    each element, so the order is a parameter; all that is known of the list
    is that it holds the members of the set, each once. *)
Record SetOrder := {
  setList : gset string → list string;
  setList_members : ∀ s, setList s ≡ₚ elements s;
}.

Section Reconciler.

(** The remote system. *)
Variable client : Client.

(** [populateUserProfile] and [convertInterfaceToStringSetNullable] are
    declared outside src/ and are parameters. *)
Variable populateUserProfile : ResourceData → UserProfile.
Variable convertInterfaceToStringSetNullable : gset string → option (list string).

(** The order in which [schema.Set.List()] lists a set. *)
Variable order : SetOrder.

(** [func resourceUserRead] (lines 462-496). The attribute values that
    [setNonPrimitives], [setAdminRoles] and [setGroupUserMemberships]
    write into the resource are not tracked. *)
Definition resourceUserRead : M unit :=
  d ← getData;
  r ← invoke client (GetUser (rdId d));
  match suppressErrorOn404 r with
  | Some err => fail ("failed to get user: " +:+ err)
  | None =>
      match r with
      | Failure _ _ => setId EmptyString
      | Success user =>
          setString "raw_status" (userStatus user);;
          r ← invoke client (setNonPrimitives user);
          orFail "failed to set user's properties: " r;;
          d ← getData;
          when (negb (GetB d "skip_roles"))
            (r ← invoke client (setAdminRoles (rdId d));
             orFail "failed to set user's admin roles: " r);;
          d ← getData;
          when (snd (GetOkSet d "group_memberships"))
            (r ← invoke client (setGroupUserMemberships (rdId d));
             orFail "failed to set user's groups: " r)
      end
  end.

(** [func resourceUserCreate] (lines 377-460). *)
Definition resourceUserCreate : M unit :=
  d ← getData;
  let profile := populateUserProfile d in
  let qp := createQueryParams d in
  let userBody := {| reqProfile := profile; reqCredentials := createCredentials d |} in
  r ← invoke client (CreateUser userBody qp);
  user ← orFail "failed to create user: " r;
  setId (userId user);;
  d ← getData;
  when (snd (GetOkSet d "admin_roles"))
    (match convertInterfaceToStringSetNullable (GetSet d "admin_roles") with
     | Some roles =>
         r ← invoke client (assignAdminRolesToUser (userId user) roles false);
         orFail EmptyString r
     | None => mret tt
     end);;
  when (snd (GetOkSet d "group_memberships"))
    (match convertInterfaceToStringSetNullable (GetSet d "group_memberships") with
     | Some groups =>
         r ← invoke client (assignGroupsToUser (userId user) groups);
         orFail EmptyString r
     | None =>
         r ← invoke client (assignGroupsToUser (userId user) []);
         orFail EmptyString r
     end);;
  when (bool_decide (GetS d "status" = userStatusSuspended)
        || bool_decide (GetS d "status" = userStatusDeprovisioned))
    (r ← invoke client (updateUserStatus (userId user) (GetS d "status"));
     orFail "failed to update user status: " r);;
  when (snd (GetOkB d "expire_password_on_create")
        && fst (GetOkB d "expire_password_on_create"))
    (r ← invoke client (ExpirePassword (userId user));
     orFail "failed to expire user's password: " r);;
  resourceUserRead.

(** The loop over the remote roles (lines 581-588). *)
Fixpoint removeRoles (id : string) (rolesToRemove : list string) (roles : list Role) : M unit :=
  match roles with
  | [] => mret tt
  | role :: rest =>
      when (contains rolesToRemove (roleType role))
        (r ← invoke client (RemoveRoleFromUser id (roleId role));
         match suppressErrorOn404 r with
         | Some err => fail ("failed to remove user's role: " +:+ err)
         | None => mret tt
         end);;
      removeRoles id rolesToRemove rest
  end.

(** [func resourceUserUpdate] (lines 498-665). *)
Definition resourceUserUpdate : M unit :=
  d ← getData;
  let status := GetS d "status" in
  let statusChange := HasChangeS d "status" in
  failIf (bool_decide (status = userStatusStaged) && statusChange) stagedUpdateError;;
  let roleChange := HasChangeSet d "admin_roles" in
  let groupChange := HasChangeSet d "group_memberships" in
  let userChange := hasProfileChange d in
  let passwordChange := HasChangeS d "password" in
  let passwordHashChange := HasChangeBlocks d "password_hash" in
  let passwordHookChange := HasChangeS d "password_inline_hook" in
  let recoveryQuestionChange := HasChangeS d "recovery_question" in
  let recoveryAnswerChange := HasChangeS d "recovery_answer" in
  when passwordChange
    (r ← invoke client (GetUser (rdId d));
     user ← orFail "failed to get user: " r;
     failIf (bool_decide (userStatus user = "PROVISIONED")) provisionedPasswordError);;
  when statusChange
    (r ← invoke client (updateUserStatus (rdId d) status);
     orFail "failed to update user status: " r;;
     setString "status" status);;
  failIf (bool_decide (status = userStatusDeprovisioned) && userChange)
         deprovisionedUpdateError;;
  when (userChange || passwordHashChange || passwordHookChange)
    (d ← getData;
     let profile := populateUserProfile d in
     let userBody :=
       {| userId := EmptyString; userStatus := EmptyString;
          userProfile := Some profile; userCredentials := None |} in
     let userBody :=
       if passwordHashChange
       then {| userId := userId userBody; userStatus := userStatus userBody;
               userProfile := userProfile userBody;
               userCredentials :=
                 Some {| Password :=
                           Some {| Hash := buildPasswordCredentialHash
                                             (GetBlocks d "password_hash");
                                   Hook := None; Value := EmptyString |};
                         RecoveryQuestion := None |} |}
       else userBody in
     let pih := GetS d "password_inline_hook" in
     let userBody :=
       if passwordHookChange && bool_decide (pih ≠ EmptyString)
       then {| userId := userId userBody; userStatus := userStatus userBody;
               userProfile := userProfile userBody;
               userCredentials :=
                 Some {| Password :=
                           Some {| Hook := Some {| HookType := pih |};
                                   Hash := None; Value := EmptyString |};
                         RecoveryQuestion := None |} |}
       else userBody in
     r ← invoke client (UpdateUser (rdId d) userBody);
     orFail "failed to update user: " r);;
  when roleChange
    (d ← getData;
     let '(oldSet, newSet) := GetChangeSet d "admin_roles" in
     let rolesToAdd := setList order (newSet ∖ oldSet) in
     let rolesToRemove := setList order (oldSet ∖ newSet) in
     r ← invoke client (listUserOnlyRoles (rdId d));
     roles ← orFail "failed to list user's roles: " r;
     removeRoles (rdId d) rolesToRemove roles;;
     r ← invoke client (assignAdminRolesToUser (rdId d) rolesToAdd false);
     orFail EmptyString r);;
  when groupChange
    (d ← getData;
     let '(oldSet, newSet) := GetChangeSet d "group_memberships" in
     let groupsToAdd := setList order (newSet ∖ oldSet) in
     let groupsToRemove := setList order (oldSet ∖ newSet) in
     r ← invoke client (addUserToGroups (rdId d) groupsToAdd);
     orFail EmptyString r;;
     r ← invoke client (removeUserFromGroups (rdId d) groupsToRemove);
     orFail EmptyString r);;
  when passwordChange
    (d ← getData;
     let '(oldPassword, newPassword) := GetChangeS d "password" in
     let '(old, oldPasswordExist) := GetOkS d "old_password" in
     let oldPassword := if oldPasswordExist then old else oldPassword in
     when oldPasswordExist
       (let op := {| Hash := None; Hook := None; Value := oldPassword |} in
        let np := {| Hash := None; Hook := None; Value := newPassword |} in
        let npr := {| OldPassword := op; NewPassword := np |} in
        r ← invoke client (ChangePassword (rdId d) npr);
        orFail "failed to update user's password: " r);;
     when (negb oldPasswordExist)
       (let password := newPassword in
        let user :=
          {| userId := EmptyString; userStatus := EmptyString; userProfile := None;
             userCredentials :=
               Some {| Password := Some {| Hash := None; Hook := None;
                                           Value := password |};
                       RecoveryQuestion := None |} |} in
        r ← invoke client (UpdateUser (rdId d) user);
        orFail "failed to set user's password: " r));;
  when (recoveryQuestionChange || recoveryAnswerChange)
    (d ← getData;
     let nuc :=
       {| Password := Some {| Hash := None; Hook := None; Value := GetS d "password" |};
          RecoveryQuestion := Some {| Question := GetS d "recovery_question";
                                      Answer := GetS d "recovery_answer" |} |} in
     r ← invoke client (ChangeRecoveryQuestion (rdId d) nuc);
     orFail "failed to change user's password recovery question: " r);;
  resourceUserRead.

(** The loop of [ensureUserDelete] (lines 712-717), by the number of passes
    that remain. *)
Fixpoint deletePasses (id : string) (passes : nat) : M unit :=
  match passes with
  | O => mret tt
  | S remaining =>
      r ← invoke client (DeactivateOrDeleteUser id);
      orFail "failed to deprovision or delete user from Okta: " r;;
      deletePasses id remaining
  end.

(** [func ensureUserDelete] (lines 705-719). *)
Definition ensureUserDelete (id status : string) : M unit :=
  let passes := if bool_decide (status = userStatusDeprovisioned) then 1 else 2 in
  deletePasses id passes.

(** [func resourceUserDelete] (lines 667-674). *)
Definition resourceUserDelete : M unit :=
  d ← getData;
  ensureUserDelete (rdId d) (GetS d "status").

End Reconciler.

(** ** Validation before create *)

(** The attributes that the configuration of a resource supplies. *)
Definition supplied (d : ResourceData) : gset string :=
  dom (aStrings (rdNew d)) ∪ dom (aBools (rdNew d))
  ∪ dom (aSets (rdNew d)) ∪ dom (aBlocks (rdNew d)).

(** Modelled from the spec: validation errors are raised before any remote
    call and are reported without side effects (section 7). The plugin SDK,
    not the code of the resource, validates the configuration before it
    calls the create function, and does not call it for a configuration
    that failed validation. *)
Definition validatedCreate (client : Client)
    (populateUserProfile : ResourceData → UserProfile)
    (convertInterfaceToStringSetNullable : gset string → option (list string))
    : M unit :=
  d ← getData;
  match Validate credentialSchema (supplied d) with
  | [] => resourceUserCreate client populateUserProfile convertInterfaceToStringSetNullable
  | msg :: _ => fail msg
  end.


(** ** Specifications of runs

    [steps I J P m]: started on a resource that satisfies [I], the run of
    [m] leaves a resource that satisfies [J] and appends to the trace a list
    of events that satisfies [P]. *)
Definition steps {A : Type} (I J : ResourceData → Prop) (P : list event → Prop)
    (m : M A) : Prop :=
  ∀ w, I (wData w) →
       J (wData (m w).1) ∧ ∃ l, wTrace (m w).1 = wTrace w ++ l ∧ P l.

Definition emits {A : Type} (P : list event → Prop) (m : M A) : Prop :=
  steps (λ _, True) (λ _, True) P m.

(** The three parts of the role contract of an update, on the events it
    appends. *)
Definition additionsAfterRemovals (l : list event) : Prop :=
  ∃ la lb, l = la ++ lb
           ∧ Forall (λ e, isRoleAddition e = false) la
           ∧ Forall (λ e, isRoleRemoval e = false) lb.

Definition removalsJustified (d : ResourceData) (l : list event) : Prop :=
  ∀ l1 e l2 id role,
    l = l1 ++ e :: l2 → removedRole e = Some (id, role) →
    id = rdId d
    ∧ ∃ el roles r,
        el ∈ l1 ∧ listedRoles el = Some (rdId d, roles)
        ∧ r ∈ roles ∧ roleId r = role
        ∧ roleType r ∈ getSet (rdState d) "admin_roles" ∖ getSet (rdNew d) "admin_roles".

Definition notFoundAbsorbed (l : list event) : Prop :=
  ∀ l1 e l2,
    l = l1 ++ e :: l2 → isRoleRemoval e = true → failureCode e = Some 404 →
    ∃ next l3, l2 = next :: l3
               ∧ (isRoleRemoval next = true ∨ isRoleAddition next = true).

Definition rolesOk (d : ResourceData) (l : list event) : Prop :=
  additionsAfterRemovals l ∧ removalsJustified d l ∧ notFoundAbsorbed l.

Definition noRoleChange (e : event) : Prop :=
  isRoleRemoval e = false ∧ isRoleAddition e = false.

(** What the steps of an update before the role step keep of the
    resource. *)
Definition sameRoles (d0 d : ResourceData) : Prop :=
  rdId d = rdId d0
  ∧ getSet (rdState d) "admin_roles" = getSet (rdState d0) "admin_roles"
  ∧ getSet (rdNew d) "admin_roles" = getSet (rdNew d0) "admin_roles".

(** An event of the loop over the remote roles: the removal of a listed
    role whose type is to be removed. *)
Definition justified (id : string) (toRemove : list string) (roles : list Role)
    (e : event) : Prop :=
  isRoleAddition e = false
  ∧ ∃ r, r ∈ roles ∧ removedRole e = Some (id, roleId r) ∧ roleType r ∈ toRemove.

(** ** Sample resources and remote systems *)

Module Sample.

Definition strings (m : gmap string string) : attrs :=
  {| aStrings := m; aBools := ∅; aSets := ∅; aBlocks := ∅ |}.

Definition remoteUser : User :=
  {| userId := "00u1"; userStatus := "ACTIVE";
     userProfile := None; userCredentials := None |}.

Definition remoteRoles : list Role :=
  [ {| roleId := "ra1"; roleType := "APP_ADMIN" |};
    {| roleId := "ra2"; roleType := "USER_ADMIN" |} ].

(** A remote system in which every call succeeds. *)
Definition allOk : Client := λ _ c,
  match c return resp c with
  | CreateUser _ _ | GetUser _ => Success remoteUser
  | listUserOnlyRoles _ => Success remoteRoles
  | _ => Success tt
  end.

(** A remote system in which the roles to remove are already gone. *)
Definition rolesGone : Client := λ h c,
  match c return resp c with
  | RemoveRoleFromUser _ _ => Failure 404 "Not found"
  | c => allOk h c
  end.

(** A remote system in which removing a role is refused. *)
Definition rolesRefused : Client := λ h c,
  match c return resp c with
  | RemoveRoleFromUser _ _ => Failure 403 "Forbidden"
  | c => allOk h c
  end.

Definition profileOf (d : ResourceData) : UserProfile :=
  {[ "login" := GetS d "login" ]}.

Definition toList (s : gset string) : option (list string) :=
  if decide (s = ∅) then None else Some (elements s).

(** Two orders of listing a set: the order of [elements], and its reverse. *)
Definition byElements : SetOrder :=
  {| setList := elements; setList_members := λ _, reflexivity _ |}.

Definition backwards : SetOrder :=
  {| setList := λ s, reverse (elements s);
     setList_members := λ s, reverse_Permutation (elements s) |}.

Definition fresh (new : attrs) : world :=
  {| wData := {| rdId := EmptyString; rdState := strings ∅; rdNew := new |};
     wTrace := [] |}.

Definition stored (state new : attrs) : world :=
  {| wData := {| rdId := "00u1"; rdState := state; rdNew := new |};
     wTrace := [] |}.

Definition priorStrings : gmap string string :=
  {[ "login" := "a@b.com"; "status" := "ACTIVE";
     "password" := "old-secret"; "old_password" := "old-secret" ]}.

(** Only the password differs between the prior state and the new values,
    and [old_password] is supplied. *)
Definition passwordChanged : world :=
  stored (strings priorStrings)
         (strings (<["password" := "new-secret"]> priorStrings)).

Definition stagedCreate : world :=
  fresh (strings {[ "login" := "a@b.com"; "status" := "STAGED" ]}).

(** A hook reference next to a plaintext password and a password hash. *)
Definition hookCreate : world :=
  fresh {| aStrings := {[ "login" := "a@b.com"; "password" := "secret";
                          "password_inline_hook" := "default" ]};
           aBools := ∅;
           aSets := ∅;
           aBlocks := {[ "password_hash" :=
                           [ {| hbAlgorithm := "BCRYPT"; hbWorkFactor := 10;
                                hbSalt := "salt"; hbSaltOrder := EmptyString;
                                hbValue := "hashed" |} ] ]} |}.

Definition stagedUpdate : world :=
  stored (strings priorStrings) (strings (<["status" := "STAGED"]> priorStrings)).

Definition withRoles (roles : gset string) : attrs :=
  {| aStrings := priorStrings; aBools := ∅;
     aSets := {[ "admin_roles" := roles ]}; aBlocks := ∅ |}.

(** The role APP_ADMIN is replaced by HELP_DESK_ADMIN. *)
Definition rolesChanged : world :=
  stored (withRoles {[ "APP_ADMIN" ]}) (withRoles {[ "HELP_DESK_ADMIN" ]}).

End Sample.

(** ** The importer of the user resource *)

(** The [StateContext] of the importer (lines 62-74): the resource comes
    with the identifier or the e-mail address given to the import. *)
Definition importUserState (client : Client) : M unit :=
  d ← getData;
  r ← invoke client (GetUser (rdId d));
  user ← orFail EmptyString r;
  setId (userId user);;
  d ← getData;
  r ← invoke client (setAdminRoles (rdId d));
  orFail "failed to set user's roles: " r.

(** ** Listing applications (okta/app_filter.go) *)

Module AppList.

(** [query.Params], with the fields [listApps] sets. *)
Record Params := {
  Q : string;
  Filter : string;
  Limit : Z;
}.

(** What [resp.HasNextPage()] and [resp.Next(ctx, &nextApps)] give: no
    further page, a failed request, or the applications of the next page
    with the response to go on from. The chain of pages is finite. *)
Inductive Response (App : Type) : Type :=
| NoNextPage
| NextFails (err : string)
| NextPage (nextApps : list App) (resp : Response App).
Arguments NoNextPage {App}.
Arguments NextFails {App} err.
Arguments NextPage {App} nextApps resp.

(** [client.Application.ListApplications]: the applications of the first
    page and the response. *)
Definition Lister (App : Type) : Type := Params → outcome (list App * Response App).

(** The loop of [listApps] (lines 46-53). *)
Fixpoint followPages {App : Type} (resultingApps : list App) (resp : Response App)
    : result (list App) :=
  match resp with
  | NoNextPage => Ok resultingApps
  | NextFails err => Err err
  | NextPage nextApps resp' => followPages (resultingApps ++ nextApps) resp'
  end.

(** The parameters [listApps] sends (lines 33-37); [filters] may be nil. *)
Definition listParams (filters : option AppFilter.appFilters) (limit : Z) : Params :=
  let params := {| Q := EmptyString; Filter := EmptyString; Limit := limit |} in
  match filters with
  | Some f => {| Q := AppFilter.getQ f; Filter := AppFilter.Status f; Limit := Limit params |}
  | None => params
  end.

(** [func listApps] (lines 32-55). *)
Definition listApps {App : Type} (ListApplications : Lister App)
    (filters : option AppFilter.appFilters) (limit : Z) : result (list App) :=
  let params := listParams filters limit in
  match ListApplications params with
  | Failure _ err => Err err
  | Success (apps, resp) => followPages apps resp
  end.

(** All the pages of a response, and whether a request of the chain
    fails. *)
Fixpoint pagesOf {App : Type} (resp : Response App) : list (list App) :=
  match resp with
  | NoNextPage | NextFails _ => []
  | NextPage nextApps resp' => nextApps :: pagesOf resp'
  end.

Fixpoint failure {App : Type} (resp : Response App) : option string :=
  match resp with
  | NoNextPage => None
  | NextFails err => Some err
  | NextPage _ resp' => failure resp'
  end.

(** The number of requests [listApps] sends after the first one. *)
Fixpoint requests {App : Type} (resp : Response App) : nat :=
  match resp with
  | NoNextPage => 0
  | NextFails _ => 1
  | NextPage _ resp' => S (requests resp')
  end.

End AppList.

(** ** Further observations on events *)

Definition isGetUser (e : event) : bool :=
  match e with
  | Called (GetUser _) _ => true
  | _ => false
  end.

Definition isStatusUpdate (e : event) : bool :=
  match e with
  | Called (updateUserStatus _ _) _ => true
  | _ => false
  end.

Definition isExpirePassword (e : event) : bool :=
  match e with
  | Called (ExpirePassword _) _ => true
  | _ => false
  end.

(** The calls of a trace, in order. *)
Definition calls (l : list event) : list call := omap callOf l.

(** The place of a call in a create: the create call, the role assignment,
    the group assignment, the status change, the expiry of the password,
    the read-back. *)
Definition createPhase (c : call) : nat :=
  match c with
  | CreateUser _ _ => 0
  | assignAdminRolesToUser _ _ _ => 1
  | assignGroupsToUser _ _ => 2
  | updateUserStatus _ _ => 3
  | ExpirePassword _ => 4
  | _ => 5
  end.

(** The password credential of an update-user call carries a hash, a hook
    or neither, never both. *)
Definition hashOrHook (e : event) : Prop :=
  match e with
  | Called (UpdateUser _ body) _ =>
      match userCredentials body with
      | Some {| Password := Some p |} => Hash p = None ∨ Hook p = None
      | _ => True
      end
  | _ => True
  end.

(** ** Ranks of events

    The order of the steps of a run is stated through a rank given to the
    events that take part in it: the ranks of a trace, in order, are to be
    sorted. *)
Definition ranks (rank : event → option nat) (l : list event) : list nat :=
  omap rank l.

Definition rankIs (rank : event → option nat) (k : nat) (e : event) : Prop :=
  match rank e with
  | Some n => n = k
  | None => True
  end.

Definition ranked (rank : event → option nat) (lo hi : nat) (l : list event) : Prop :=
  StronglySorted le (ranks rank l) ∧ Forall (λ n, (lo ≤ n ≤ hi)%nat) (ranks rank l).

(** The steps of a create, in the order of the source: the create call, the
    role assignment, the group assignment, the status change, the expiry of
    the password, the read-back. *)
Definition createRank (e : event) : option nat :=
  match e with
  | Called (CreateUser _ _) _ => Some 0
  | Called (assignAdminRolesToUser _ _ _) _ => Some 1
  | Called (assignGroupsToUser _ _) _ => Some 2
  | Called (updateUserStatus _ _) _ => Some 3
  | Called (ExpirePassword _) _ => Some 4
  | Called _ _ => Some 5
  | IdSet _ => None
  end.

(** The steps of an update, in the order of the source. Fetching the user
    happens both before the first step and in the read-back and has no rank;
    an update-user call is the profile step when it carries a profile and
    the password step when it does not. *)
Definition updateRank (e : event) : option nat :=
  match e with
  | Called (GetUser _) _ => None
  | Called (updateUserStatus _ _) _ => Some 1
  | Called (UpdateUser _ body) _ =>
      match userProfile body with
      | Some _ => Some 2
      | None => Some 8
      end
  | Called (listUserOnlyRoles _) _ => Some 3
  | Called (RemoveRoleFromUser _ _) _ => Some 4
  | Called (assignAdminRolesToUser _ _ _) _ => Some 5
  | Called (addUserToGroups _ _) _ => Some 6
  | Called (removeUserFromGroups _ _) _ => Some 7
  | Called (ChangePassword _ _) _ => Some 8
  | Called (ChangeRecoveryQuestion _ _) _ => Some 9
  | Called _ _ => Some 10
  | IdSet _ => None
  end.

(** [onError φ m]: when the run of [m] fails, the events it appended all
    satisfy [φ]. *)
Definition onError {A : Type} (φ : event → Prop) (m : M A) : Prop :=
  ∀ w, ∃ l, wTrace (m w).1 = wTrace w ++ l
            ∧ (∀ msg, (m w).2 = Err msg → Forall φ l).

(** [keptOnError I m]: when the run of [m] starts on a resource that
    satisfies [I] and fails, the resource it leaves satisfies [I]. *)
Definition keptOnError {A : Type} (I : ResourceData → Prop) (m : M A) : Prop :=
  ∀ w, I (wData w) → ∀ msg, (m w).2 = Err msg → I (wData (m w).1).

Definition isIdSet (e : event) : bool :=
  match e with
  | IdSet _ => true
  | _ => false
  end.

(** ** Further sample resources and remote systems *)

Module Sample2.

(** The user is gone. *)
Definition userGone : Client := λ h c,
  match c return resp c with
  | GetUser _ => Failure 404 "Not found"
  | c => Sample.allOk h c
  end.

(** Fetching the user fails. *)
Definition fetchFails : Client := λ h c,
  match c return resp c with
  | GetUser _ => Failure 500 "Internal error"
  | c => Sample.allOk h c
  end.

(** The user has not finished the activation workflow. *)
Definition provisionedUser : User :=
  {| userId := "00u1"; userStatus := "PROVISIONED";
     userProfile := None; userCredentials := None |}.

Definition provisioned : Client := λ h c,
  match c return resp c with
  | GetUser _ => Success provisionedUser
  | c => Sample.allOk h c
  end.

(** A resource imported by e-mail address. *)
Definition imported : world :=
  {| wData := {| rdId := "a@b.com"; rdState := Sample.strings ∅;
                 rdNew := Sample.strings ∅ |};
     wTrace := [] |}.

Definition priorWithoutOld : gmap string string :=
  {[ "login" := "a@b.com"; "status" := "ACTIVE"; "password" := "old-secret" ]}.

(** Only the password differs, and no [old_password] is supplied. *)
Definition passwordReset : world :=
  Sample.stored (Sample.strings priorWithoutOld)
                (Sample.strings (<["password" := "new-secret"]> priorWithoutOld)).

(** Nothing differs. *)
Definition unchanged : world :=
  Sample.stored (Sample.strings Sample.priorStrings) (Sample.strings Sample.priorStrings).

(** The first name differs and the status is DEPROVISIONED. *)
Definition deprovisionedEdit : world :=
  Sample.stored
    (Sample.strings (<["status" := "DEPROVISIONED"]> Sample.priorStrings))
    (Sample.strings (<["first_name" := "Ann"]>
                       (<["status" := "DEPROVISIONED"]> Sample.priorStrings))).

(** Only the recovery answer differs. *)
Definition answerChanged : world :=
  Sample.stored
    (Sample.strings Sample.priorStrings)
    (Sample.strings (<["recovery_answer" := "a new answer"]>
                       (<["recovery_question" := "What?"]> Sample.priorStrings))).

Definition withGroups (groups : gset string) : attrs :=
  {| aStrings := Sample.priorStrings; aBools := ∅;
     aSets := {[ "group_memberships" := groups ]}; aBlocks := ∅ |}.

(** Only the status differs: the user is suspended. *)
Definition suspended : world :=
  Sample.stored (Sample.strings Sample.priorStrings)
                (Sample.strings (<["status" := "SUSPENDED"]> Sample.priorStrings)).

(** The group g1 is replaced by g2. *)
Definition groupsChanged : world :=
  Sample.stored (withGroups {[ "g1" ]}) (withGroups {[ "g2" ]}).

(** Two groups are dropped and four are new while one is kept. *)
Definition groupsReplaced : world :=
  Sample.stored (withGroups {[ "g1"; "g3"; "keep" ]})
                (withGroups {[ "g2"; "g10"; "c"; "zz"; "keep" ]}).

(** A search by label prefix among the active applications. *)
Definition search : ResourceData :=
  {| rdId := EmptyString; rdState := Sample.strings ∅;
     rdNew := {| aStrings := {[ "label_prefix" := "git" ]};
                 aBools := {[ "active_only" := true ]};
                 aSets := ∅; aBlocks := ∅ |} |}.

End Sample2.

(** ** Guards of the follow-up steps of a create *)

(** What the resource holds when a follow-up call of a create is issued. *)
Definition followUpGuarded (d : ResourceData) (e : event) : Prop :=
  match e with
  | Called (assignAdminRolesToUser _ _ _) _ => GetSet d "admin_roles" ≠ ∅
  | Called (assignGroupsToUser _ _) _ => GetSet d "group_memberships" ≠ ∅
  | Called (updateUserStatus _ status) _ =>
      status = GetS d "status"
      ∧ (status = userStatusSuspended ∨ status = userStatusDeprovisioned)
  | Called (ExpirePassword _) _ => GetB d "expire_password_on_create" = true
  | _ => True
  end.

Module Sample3.

(** Creating the user is refused. *)
Definition createFails : Client := λ h c,
  match c return resp c with
  | CreateUser _ _ => Failure 400 "Bad request"
  | c => Sample.allOk h c
  end.

(** A resource that does not ask for its roles. *)
Definition skipRoles : world :=
  {| wData := {| rdId := "00u1"; rdState := Sample.strings ∅;
                 rdNew := {| aStrings := Sample.priorStrings;
                             aBools := {[ "skip_roles" := true ]};
                             aSets := ∅; aBlocks := ∅ |} |};
     wTrace := [] |}.

(** A remote system that refuses to change the status of a user. *)
Definition statusRefused : Client := λ h c,
  match c return resp c with
  | updateUserStatus _ _ => Failure 403 "Forbidden"
  | c => Sample.allOk h c
  end.

(** The hash block and the hook reference both differ from the prior
    state. *)
Definition hashAndHookChanged : world :=
  Sample.stored
    (Sample.strings Sample.priorStrings)
    {| aStrings := <["password_inline_hook" := "default"]> Sample.priorStrings;
       aBools := ∅;
       aSets := ∅;
       aBlocks := {[ "password_hash" :=
                       [ {| hbAlgorithm := "BCRYPT"; hbWorkFactor := 10;
                            hbSalt := "salt"; hbSaltOrder := EmptyString;
                            hbValue := "hashed" |} ] ]} |}.

(** A plaintext password next to a password hash, and no hook. *)
Definition passwordAndHash : world :=
  Sample.fresh {| aStrings := {[ "login" := "a@b.com"; "password" := "secret" ]};
                  aBools := ∅;
                  aSets := ∅;
                  aBlocks := {[ "password_hash" :=
                                  [ {| hbAlgorithm := "BCRYPT"; hbWorkFactor := 10;
                                       hbSalt := "salt"; hbSaltOrder := EmptyString;
                                       hbValue := "hashed" |} ] ]} |}.

Definition suspendedCreate : world :=
  Sample.fresh (Sample.strings {[ "login" := "a@b.com"; "status" := "SUSPENDED" ]}).

End Sample3.

(** ** What the calls of an update carry *)

(** A change-password call is for the user of the resource and carries the
    supplied [old_password] and the new [password]. *)
Definition carriesOldPassword (d : ResourceData) (e : event) : Prop :=
  match e with
  | Called (ChangePassword id req) _ =>
      id = rdId d
      ∧ GetS d "old_password" ≠ EmptyString
      ∧ Value (OldPassword req) = GetS d "old_password"
      ∧ Value (NewPassword req) = GetS d "password"
  | _ => True
  end.

(** The credentials of an update-user call that carries the profile, by
    what changed: the hook alone when the hook changed and is not empty,
    whether or not the hash changed; otherwise the hash alone when the hash
    changed; otherwise none. *)
Definition credentialsOfChange (d : ResourceData) (e : event) : Prop :=
  match e with
  | Called (UpdateUser _ body) _ =>
      userProfile body ≠ None →
      let pih := GetS d "password_inline_hook" in
      let hookSent := HasChangeS d "password_inline_hook" = true ∧ pih ≠ EmptyString in
      let hashChanged := HasChangeBlocks d "password_hash" = true in
      (hookSent →
       userCredentials body
       = Some {| Password := Some {| Hash := None; Hook := Some {| HookType := pih |};
                                     Value := EmptyString |};
                 RecoveryQuestion := None |})
      ∧ (¬ hookSent → hashChanged →
         userCredentials body
         = Some {| Password :=
                     Some {| Hash := buildPasswordCredentialHash
                                       (GetBlocks d "password_hash");
                             Hook := None; Value := EmptyString |};
                   RecoveryQuestion := None |})
      ∧ (¬ hookSent → ¬ hashChanged → userCredentials body = None)
  | _ => True
  end.

(** What the steps of an update keep of the credentials of the resource:
    the hook reference and the hash block. *)
Definition sameCredentials (d0 d : ResourceData) : Prop :=
  GetS d "password_inline_hook" = GetS d0 "password_inline_hook"
  ∧ GetBlocks d "password_hash" = GetBlocks d0 "password_hash".

(** What the steps of an update keep of the resource: the identifier and
    every string attribute but the status. *)
Definition sameStrings (d0 d : ResourceData) : Prop :=
  rdId d = rdId d0 ∧ ∀ k, k ≠ "status" → GetS d k = GetS d0 k.

(** The calls an update has no use for. *)
Definition foreignToUpdate (e : event) : bool :=
  match e with
  | Called (CreateUser _ _) _ | Called (DeactivateOrDeleteUser _) _
  | Called (ExpirePassword _) _ | Called (assignGroupsToUser _ _) _ => true
  | _ => false
  end.

(** * Properties *)

(** ** Status normalisation *)

(** C4: [mapStatus] sends PASSWORD_EXPIRED and RECOVERY to ACTIVE and is the
    identity on every other status string. *)
Theorem mapStatus_spec (X : string) :
  mapStatus userStatusPasswordExpired = statusActive
  ∧ mapStatus userStatusRecovery = statusActive
  ∧ (X ≠ userStatusPasswordExpired → X ≠ userStatusRecovery → mapStatus X = X).
Proof.
  split; [reflexivity | split; [reflexivity |]].
  intros Hpe Hrec. unfold mapStatus.
  rewrite !bool_decide_eq_false_2 by assumption. reflexivity.
Qed.

(** C5, as the specification states it, fails: [mapStatus] leaves
    PROVISIONED as it is. *)
Lemma mapStatus_provisioned_not_active :
  mapStatus userStatusProvisioned ≠ statusActive.
Proof. discriminate. Qed.

(** C5 (amended): [mapStatus] sends PASSWORD_EXPIRED and RECOVERY to ACTIVE
    and leaves PROVISIONED unchanged; PROVISIONED (like PASSWORD_EXPIRED) is
    taken for ACTIVE only by the diff suppression of the [status] attribute,
    when the prior value is PROVISIONED and the new one is ACTIVE. *)
Theorem transient_statuses_normalise :
  mapStatus userStatusPasswordExpired = statusActive
  ∧ mapStatus userStatusRecovery = statusActive
  ∧ mapStatus userStatusProvisioned = userStatusProvisioned
  ∧ statusDiffSuppress userStatusProvisioned statusActive = true
  ∧ statusDiffSuppress userStatusPasswordExpired statusActive = true.
Proof. repeat split; reflexivity. Qed.

(** ** Filter builder *)

Lemma statusEq_nonempty : AppFilter.statusEq ≠ EmptyString.
Proof. discriminate. Qed.

(** C8: [getAppFilters] fails, with the error that asks for a criterion,
    exactly when id, label and label prefix are all empty; otherwise the
    filter it returns has as query term the label when it is non-empty and
    the label prefix otherwise, and its status clause is the status-equality
    expression exactly when [active_only] is set (it is empty otherwise). *)
Theorem getAppFilters_spec (d : ResourceData) :
  let id := GetS d "id" in
  let label := GetS d "label" in
  let labelPrefix := GetS d "label_prefix" in
  match AppFilter.getAppFilters d with
  | Err msg =>
      msg = AppFilter.missingCriteria
      ∧ id = EmptyString ∧ label = EmptyString ∧ labelPrefix = EmptyString
  | Ok f =>
      ¬ (id = EmptyString ∧ label = EmptyString ∧ labelPrefix = EmptyString)
      ∧ AppFilter.ID f = id
      ∧ AppFilter.getQ f
        = (if bool_decide (label ≠ EmptyString) then label else labelPrefix)
      ∧ (AppFilter.Status f = AppFilter.statusEq ↔ GetB d "active_only" = true)
      ∧ (AppFilter.Status f = EmptyString ↔ GetB d "active_only" = false)
  end.
Proof.
  intros id label labelPrefix. unfold AppFilter.getAppFilters.
  fold id label labelPrefix.
  destruct (bool_decide (id = EmptyString)) eqn:Hid;
    destruct (bool_decide (label = EmptyString)) eqn:Hl;
    destruct (bool_decide (labelPrefix = EmptyString)) eqn:Hp;
    cbn [andb];
    try apply bool_decide_eq_true_1 in Hid; try apply bool_decide_eq_false_1 in Hid;
    try apply bool_decide_eq_true_1 in Hl; try apply bool_decide_eq_false_1 in Hl;
    try apply bool_decide_eq_true_1 in Hp; try apply bool_decide_eq_false_1 in Hp.
  1: { auto. }
  all: split; [tauto |].
  all: destruct (GetB d "active_only") eqn:Hact; cbn;
       (split; [reflexivity |]);
       (split; [unfold AppFilter.getQ; cbn; repeat case_bool_decide; congruence |]);
       pose proof statusEq_nonempty;
       split; split; intros; congruence.
Qed.

(** ** Credential validation *)

(** C2, as the specification states it, fails: a configuration that
    supplies both [password] and [password_hash] passes validation, and the
    create that follows sends both in its create call. *)
Lemma password_with_hash_accepted :
  let c : gset string := {[ "password"; "password_hash" ]} in
  "password" ∈ c ∧ "password_hash" ∈ c
  ∧ validateConflicts credentialSchema c = []
  ∧ Validate credentialSchema c = []
  ∧ let w := Sample3.passwordAndHash in
    "password" ∈ supplied (wData w) ∧ "password_hash" ∈ supplied (wData w)
    ∧ Validate credentialSchema (supplied (wData w)) = []
    ∧ ∃ body qp hash rest,
        wTrace (validatedCreate Sample.allOk Sample.profileOf Sample.toList w).1
        = Called (CreateUser body qp) (Success Sample.remoteUser) :: rest
        ∧ Password (reqCredentials body)
          = Some {| Hash := Some hash; Hook := None; Value := "secret" |}.
Proof.
  cbv zeta. split; [set_solver | split; [set_solver |]].
  split; [vm_compute; reflexivity |]. split; [vm_compute; reflexivity |].
  split; [vm_compute; reflexivity |]. split; [vm_compute; reflexivity |].
  split; [vm_compute; reflexivity |].
  do 4 eexists. split; vm_compute; reflexivity.
Qed.

(** The [ConflictsWith] check of the credential attributes fails exactly
    for the hook reference next to the password or the hash. *)
Lemma validateConflicts_credentials (c : gset string) :
  validateConflicts credentialSchema c ≠ []
  ↔ "password_inline_hook" ∈ c ∧ ("password" ∈ c ∨ "password_hash" ∈ c).
Proof.
  unfold validateConflicts, credentialSchema, validateConflictingAttributes.
  cbn [flat_map ConflictsWith app].
  rewrite !filter_cons, !filter_nil.
  destruct (decide ("password_inline_hook" ∈ c)) as [Hh | Hh];
    destruct (decide ("password" ∈ c)) as [Hp | Hp];
    destruct (decide ("password_hash" ∈ c)) as [Hx | Hx];
    repeat case_bool_decide; try contradiction; cbn;
    split; try tauto; try discriminate; try congruence.
Qed.

(** An error of the [ConflictsWith] check of an attribute is an error of
    validation. *)
Lemma Validate_conflicts m c : validateConflicts m c ≠ [] → Validate m c ≠ [].
Proof.
  induction m as [| [k schema] m IH]; cbn [validateConflicts Validate flat_map];
    [auto |].
  fold (validateConflicts m c). fold (Validate m c).
  intros H E. apply app_eq_nil in E as [E1 E2].
  destruct (validateConflicts m c) eqn:Hm; [| apply IH; [discriminate | exact E2]].
  rewrite app_nil_r in H. case_bool_decide; [| contradiction].
  unfold validateAttribute in E1.
  destruct (validateRequiredWithAttribute k schema c); [contradiction | discriminate].
Qed.

(** C2 (amended): validation rejects every configuration that supplies
    [password_inline_hook] together with [password] or with
    [password_hash]; the create function is then not called: the create of
    such a configuration ends in an error without any remote call and
    leaves the resource as it was. ([password] and [password_hash] together
    are accepted.) *)
Theorem hook_excludes_password_and_hash (c : gset string) :
  "password_inline_hook" ∈ c →
  "password" ∈ c ∨ "password_hash" ∈ c →
  validateConflicts credentialSchema c ≠ []
  ∧ Validate credentialSchema c ≠ []
  ∧ ∀ (client : Client) populate conv (w : world),
      supplied (wData w) = c →
      ∃ msg, validatedCreate client populate conv w = (w, Err msg).
Proof.
  intros Hh Hp.
  assert (Hc : validateConflicts credentialSchema c ≠ [])
    by (apply validateConflicts_credentials; auto).
  pose proof (Validate_conflicts _ _ Hc) as Hv.
  split; [exact Hc |]. split; [exact Hv |].
  intros client populate conv w Hw.
  unfold validatedCreate, mbind, M_bind, getData. cbv beta iota. rewrite Hw.
  destruct (Validate credentialSchema c) as [| msg rest]; [contradiction |].
  exists msg. destruct w. reflexivity.
Qed.

Lemma hook_excludes_password_and_hash_witness :
  let w := Sample.hookCreate in
  let c := supplied (wData w) in
  ("password_inline_hook" ∈ c ∧ ("password" ∈ c ∨ "password_hash" ∈ c))
  ∧ validateConflicts credentialSchema c ≠ []
  ∧ Validate credentialSchema c ≠ []
  ∧ ∀ (client : Client) populate conv (w' : world),
      supplied (wData w') = c →
      ∃ msg, validatedCreate client populate conv w' = (w', Err msg).
Proof.
  cbv zeta.
  assert (Hh : "password_inline_hook" ∈ supplied (wData Sample.hookCreate))
    by (vm_compute; reflexivity).
  assert (Hp : "password" ∈ supplied (wData Sample.hookCreate))
    by (vm_compute; reflexivity).
  split; [split; [exact Hh | left; exact Hp] |].
  apply (hook_excludes_password_and_hash (supplied (wData Sample.hookCreate)));
    [exact Hh | left; exact Hp].
Defined.

(** The sample create with a hook, a password and a hash is rejected with
    the message of the conflict, and nothing is called. *)
Example sample_hook_create_rejected :
  validatedCreate Sample.allOk Sample.profileOf Sample.toList Sample.hookCreate
  = (Sample.hookCreate,
     Err (dquote +:+ "password_inline_hook" +:+ dquote +:+ ": conflicts with password")).
Proof. vm_compute. reflexivity. Qed.

(** A configuration that asks to expire the password and supplies no
    password fails the [RequiredWith] check. *)
Example sample_expire_requires_password :
  validateConflicts credentialSchema {[ "expire_password_on_create" ]} = []
  ∧ Validate credentialSchema {[ "expire_password_on_create" ]}
    = [ dquote +:+ "expire_password_on_create" +:+ dquote
        +:+ ": all of `expire_password_on_create,password` must be specified" ]
  ∧ Validate credentialSchema {[ "expire_password_on_create"; "password" ]} = [].
Proof. repeat split; vm_compute; reflexivity. Qed.

(** ** Runs of the reconciler *)

(** Sequencing: the second step runs only if the first one returns, so the
    events of the whole are those of the first step alone or those of both. *)
Lemma steps_bind {A B} (I J K : ResourceData → Prop) (P Q R : list event → Prop)
    (m : M A) (f : A → M B) :
  steps I J P m → (∀ a, steps J K Q (f a)) →
  (∀ d, J d → K d) → (∀ l, P l → R l) → (∀ l1 l2, P l1 → Q l2 → R (l1 ++ l2)) →
  steps I K R (m ≫= f).
Proof.
  intros Hm Hf HJK HPR HPQR w Hw. unfold mbind, M_bind.
  destruct (Hm w Hw) as (HJ & l1 & E1 & P1).
  destruct (m w) as [w1 [a | e]]; cbn in E1, HJ.
  - destruct (Hf a w1 HJ) as (HK & l2 & E2 & Q2).
    split; [exact HK |].
    exists (l1 ++ l2). rewrite E2, E1, app_assoc. auto.
  - cbn. split; [auto |]. exists l1. auto.
Qed.

Lemma steps_weaken {A} (I I' J J' : ResourceData → Prop) (P P' : list event → Prop)
    (m : M A) :
  steps I J P m → (∀ d, I' d → I d) → (∀ d, J d → J' d) → (∀ l, P l → P' l) →
  steps I' J' P' m.
Proof.
  intros H HI HJ HP w Hw. destruct (H w (HI _ Hw)) as (? & l & ? & ?).
  split; [auto |]. exists l. auto.
Qed.

(** Steps that keep an invariant [I] of the resource and whose events all
    satisfy [φ]. *)
Section Steps.
Context (I : ResourceData → Prop) (φ : event → Prop).

Lemma all_ret {A} (a : A) : steps I I (Forall φ) (mret a).
Proof. intros w Hw. split; [exact Hw |]. exists []. cbn. rewrite app_nil_r. auto. Qed.

Lemma all_fail {A} msg : steps I I (Forall φ) (@fail A msg).
Proof. intros w Hw. split; [exact Hw |]. exists []. cbn. rewrite app_nil_r. auto. Qed.

Lemma all_getData : steps I I (Forall φ) getData.
Proof. intros w Hw. split; [exact Hw |]. exists []. cbn. rewrite app_nil_r. auto. Qed.

Lemma all_setString k v :
  (∀ d, I d → I (SetS k v d)) → steps I I (Forall φ) (setString k v).
Proof.
  intros H w Hw. split; [exact (H _ Hw) |]. exists []. cbn. rewrite app_nil_r. auto.
Qed.

Lemma all_setId id :
  (∀ d, I d → I (SetId id d)) → φ (IdSet id) → steps I I (Forall φ) (setId id).
Proof. intros H Hφ w Hw. split; [exact (H _ Hw) |]. exists [IdSet id]. cbn. auto. Qed.

Lemma all_invoke client c :
  (∀ r, φ (Called c r)) → steps I I (Forall φ) (invoke client c).
Proof.
  intros H w Hw. split; [exact Hw |]. eexists. cbn. split; [reflexivity | auto].
Qed.

Lemma all_bind {A B} (m : M A) (f : A → M B) :
  steps I I (Forall φ) m → (∀ a, steps I I (Forall φ) (f a)) →
  steps I I (Forall φ) (m ≫= f).
Proof.
  intros Hm Hf. eapply steps_bind; eauto. intros. apply Forall_app; auto.
Qed.

Lemma all_when b m : steps I I (Forall φ) m → steps I I (Forall φ) (when b m).
Proof. intros H. destruct b; [exact H | apply all_ret]. Qed.

Lemma all_failIf b msg : steps I I (Forall φ) (failIf b msg).
Proof. destruct b; [apply all_fail | apply all_ret]. Qed.

Lemma all_orFail {A} prefix (r : outcome A) : steps I I (Forall φ) (orFail prefix r).
Proof. destruct r; [apply all_ret | apply all_fail]. Qed.

End Steps.

(** One step of a proof that every event of a run satisfies a predicate. *)
Ltac all_step :=
  first
    [ apply all_bind; [| intros ?]
    | apply all_ret | apply all_fail | apply all_getData
    | apply all_failIf | apply all_orFail | apply all_when
    | apply all_setString; intros ? H; exact H
    | apply all_setId; [intros ? H; exact H | done]
    | apply all_invoke; intros ?; done
    | match goal with
      | |- steps _ _ _ (match ?x with _ => _ end) => destruct x
      | |- steps _ _ _ (let '(_, _) := ?x in _) => destruct x
      end ].

(** A read only fetches the user, writes what it fetched and, when the user
    is gone, clears the identifier. *)
Lemma resourceUserRead_events client :
  emits (Forall (λ e, isReadEvent e = true)) (resourceUserRead client).
Proof. unfold emits, resourceUserRead. repeat all_step. Qed.

(** ** Stepping through a run *)

(** A run is followed one bind at a time: [run] when the first step returns,
    [stop] when it fails. *)
Lemma run_ok {A B} (m : M A) (f : A → M B) w w' a :
  m w = (w', Ok a) → (m ≫= f) w = f a w'.
Proof. intros H. unfold mbind, M_bind. rewrite H. reflexivity. Qed.

Lemma run_err {A B} (m : M A) (f : A → M B) w w' e :
  m w = (w', Err e) → (m ≫= f) w = (w', Err e).
Proof. intros H. unfold mbind, M_bind. rewrite H. reflexivity. Qed.

Lemma run_assoc {A B C} (m : M A) (f : A → M B) (g : B → M C) w :
  ((m ≫= f) ≫= g) w = (m ≫= (λ a, f a ≫= g)) w.
Proof. unfold mbind, M_bind. destruct (m w) as [w' [a | e]]; reflexivity. Qed.

Ltac run := erewrite run_ok by reflexivity; cbv beta zeta; cbn [wData wTrace].

Ltac stop := erewrite run_err by reflexivity; cbn [fst snd wData wTrace].

Lemma readEvent_notCreate e : isReadEvent e = true → isCreateCall e = false.
Proof. destruct e as [[] r |]; cbn; congruence. Qed.

Lemma readEvent_notFollowUp e : isReadEvent e = true → isFollowUp e = false.
Proof. destruct e as [[] r |]; cbn; congruence. Qed.

Lemma hasProfileChange_password d :
  HasChangeS d "password" = true → hasProfileChange d = true.
Proof.
  intros H. apply existsb_exists. exists "password".
  split; [| exact H]. unfold profileKeys. do 32 right. left. reflexivity.
Qed.

(** ** Delete *)

(** C3: deleting a user whose recorded status is DEPROVISIONED issues one
    deactivate-or-delete call; with any other recorded status it issues a
    first call and, only when that one succeeds, a second one. *)
Theorem delete_passes client (w : world) :
  let d := wData w in
  let del := DeactivateOrDeleteUser (rdId d) in
  let first := Called del (client (wTrace w) del) in
  let second := Called del (client (wTrace w ++ [first]) del) in
  wTrace (resourceUserDelete client w).1
  = wTrace w ++
      (if bool_decide (GetS d "status" = userStatusDeprovisioned)
       then [first]
       else match client (wTrace w) del with
            | Success _ => [first; second]
            | Failure _ _ => [first]
            end).
Proof.
  intros d del first second. subst d del first second.
  unfold resourceUserDelete. run. unfold ensureUserDelete.
  case_bool_decide; cbn [deletePasses]; run;
    destruct (client (wTrace w) _) as [[] | code err]; try (stop; reflexivity).
  - run. reflexivity.
  - run. cbn [deletePasses]. run.
    destruct (client (wTrace w ++ _) _) as [[] | code err];
      [run | stop]; cbn; rewrite <- app_assoc; reflexivity.
Qed.

(** ** Create *)

Lemma GetSet_SetId id d k : GetSet (SetId id d) k = GetSet d k.
Proof. reflexivity. Qed.

Lemma GetS_SetId id d k : GetS (SetId id d) k = GetS d k.
Proof. reflexivity. Qed.

Lemma GetB_SetId id d k : GetB (SetId id d) k = GetB d k.
Proof. reflexivity. Qed.

(** C6: a create with status STAGED, no admin roles, no group memberships
    and [expire_password_on_create] false issues the create call first, with
    [activate] set to false; when the call fails nothing else happens: the
    resource is left as it was, without identifier of the new user, and the
    create fails with that error; when it succeeds the identifier it
    returned is written into the resource as the very next event, and all
    that follows is the read-back of the user: no further create call and no
    role, group, status or expire-password call. The read-back starts on the
    resource that holds the returned identifier, and the create ends as that
    read-back ends. *)
Theorem create_staged client populate conv (w : world) :
  let d := wData w in
  let body := {| reqProfile := populate d; reqCredentials := createCredentials d |} in
  let create := CreateUser body {| Activate := Some false |} in
  GetS d "status" = userStatusStaged →
  GetSet d "admin_roles" = ∅ →
  GetSet d "group_memberships" = ∅ →
  GetB d "expire_password_on_create" = false →
  (∃ rest : list event,
     wTrace (resourceUserCreate client populate conv w).1
     = wTrace w ++ Called create (client (wTrace w) create) :: rest
     ∧ Forall (λ e, isCreateCall e = false ∧ isFollowUp e = false) rest
     ∧ match client (wTrace w) create with
       | Success user =>
           ∃ lread, rest = IdSet (userId user) :: lread
                    ∧ Forall (λ e, isReadEvent e = true) lread
       | Failure _ _ => rest = []
       end)
  ∧ resourceUserCreate client populate conv w
    = match client (wTrace w) create with
      | Success user =>
          resourceUserRead client
            {| wData := {| rdId := userId user; rdState := rdState d; rdNew := rdNew d |};
               wTrace := wTrace w ++ [Called create (Success user); IdSet (userId user)] |}
      | Failure code err =>
          ({| wData := d; wTrace := wTrace w ++ [Called create (Failure code err)] |},
           Err ("failed to create user: " +:+ err))
      end.
Proof.
  intros d body create Hstatus Hroles Hgroups Hexpire.
  assert (Hrun : resourceUserCreate client populate conv w
                 = match client (wTrace w) create with
                   | Success user =>
                       resourceUserRead client
                         {| wData := {| rdId := userId user; rdState := rdState d;
                                        rdNew := rdNew d |};
                            wTrace := wTrace w ++ [Called create (Success user);
                                                   IdSet (userId user)] |}
                   | Failure code err =>
                       ({| wData := d;
                           wTrace := wTrace w ++ [Called create (Failure code err)] |},
                        Err ("failed to create user: " +:+ err))
                   end).
  { unfold resourceUserCreate. run. unfold createQueryParams. fold d.
    rewrite Hstatus, bool_decide_eq_true_2 by reflexivity.
    fold body. fold create. run.
    destruct (client (wTrace w) create) as [user | code err]; [| stop; reflexivity].
    do 3 run. unfold GetOkSet, GetOkB. cbn [fst snd].
    rewrite !GetSet_SetId, !GetS_SetId, !GetB_SetId. fold d.
    rewrite Hroles, Hgroups, Hstatus, Hexpire.
    rewrite (bool_decide_eq_false_2 (∅ ≠ ∅)) by (intros H; apply H; reflexivity).
    do 4 run. unfold SetId. fold d. rewrite <- app_assoc. reflexivity. }
  split; [| exact Hrun].
  rewrite Hrun. destruct (client (wTrace w) create) as [user | code err].
  - match goal with
    | |- context [resourceUserRead client ?w1] =>
        destruct (resourceUserRead_events client w1 I) as (_ & lread & E & F)
    end.
    cbn [wTrace] in E. exists (IdSet (userId user) :: lread).
    split; [rewrite E, <- !app_assoc; reflexivity |].
    split; [| eauto].
    constructor; [split; reflexivity |].
    eapply Forall_impl; [exact F |]. intros e He.
    split; [apply readEvent_notCreate | apply readEvent_notFollowUp]; exact He.
  - exists []. repeat split. constructor.
Qed.

Lemma create_staged_witness :
  let w := Sample.stagedCreate in
  let d := wData w in
  let body := {| reqProfile := Sample.profileOf d;
                 reqCredentials := createCredentials d |} in
  let create := CreateUser body {| Activate := Some false |} in
  (GetS d "status" = userStatusStaged ∧ GetSet d "admin_roles" = ∅
   ∧ GetSet d "group_memberships" = ∅ ∧ GetB d "expire_password_on_create" = false)
  ∧ (∃ rest : list event,
       wTrace (resourceUserCreate Sample.allOk Sample.profileOf Sample.toList w).1
       = wTrace w ++ Called create (Sample.allOk (wTrace w) create) :: rest
       ∧ Forall (λ e, isCreateCall e = false ∧ isFollowUp e = false) rest
       ∧ match Sample.allOk (wTrace w) create with
         | Success user =>
             ∃ lread, rest = IdSet (userId user) :: lread
                      ∧ Forall (λ e, isReadEvent e = true) lread
         | Failure _ _ => rest = []
         end)
  ∧ resourceUserCreate Sample.allOk Sample.profileOf Sample.toList w
    = match Sample.allOk (wTrace w) create with
      | Success user =>
          resourceUserRead Sample.allOk
            {| wData := {| rdId := userId user; rdState := rdState d; rdNew := rdNew d |};
               wTrace := wTrace w ++ [Called create (Success user); IdSet (userId user)] |}
      | Failure code err =>
          ({| wData := d; wTrace := wTrace w ++ [Called create (Failure code err)] |},
           Err ("failed to create user: " +:+ err))
      end.
Proof.
  cbv zeta. split; [repeat split |].
  apply (create_staged Sample.allOk Sample.profileOf Sample.toList Sample.stagedCreate);
    reflexivity.
Defined.

(** The resource that the sample create leaves holds the identifier that the
    create call returned. *)
Example sample_staged_create_identifier :
  rdId (wData Sample.stagedCreate) = EmptyString
  ∧ rdId (wData (resourceUserCreate Sample.allOk Sample.profileOf Sample.toList
                   Sample.stagedCreate).1) = "00u1"
  ∧ (resourceUserCreate Sample.allOk Sample.profileOf Sample.toList
       Sample.stagedCreate).2 = Ok tt.
Proof. repeat split; vm_compute; reflexivity. Qed.

(** The run of the sample create, event by event. *)
Example sample_staged_create :
  wTrace (resourceUserCreate Sample.allOk Sample.profileOf Sample.toList
            Sample.stagedCreate).1
  = [ Called (CreateUser
                {| reqProfile := {[ "login" := "a@b.com" ]};
                   reqCredentials :=
                     {| Password := Some {| Hash := None; Hook := None;
                                            Value := EmptyString |};
                        RecoveryQuestion := None |} |}
                {| Activate := Some false |})
             (Success Sample.remoteUser);
      IdSet "00u1";
      Called (GetUser "00u1") (Success Sample.remoteUser);
      Called (setNonPrimitives Sample.remoteUser) (Success tt);
      Called (setAdminRoles "00u1") (Success tt) ].
Proof. vm_compute. reflexivity. Qed.

(** C10: when [password_inline_hook] is non-empty, the one create call of a
    create carries as password credential the hook reference alone: its
    value is empty and it has no hash, whatever [password] and
    [password_hash] hold. *)
Theorem create_with_hook client populate conv (w : world) :
  let d := wData w in
  let pih := GetS d "password_inline_hook" in
  pih ≠ EmptyString →
  ∃ body qp r rest,
    wTrace (resourceUserCreate client populate conv w).1
    = wTrace w ++ Called (CreateUser body qp) r :: rest
    ∧ Password (reqCredentials body)
      = Some {| Hash := None; Hook := Some {| HookType := pih |};
                Value := EmptyString |}
    ∧ Forall (λ e, isCreateCall e = false) rest.
Proof.
  intros d pih Hpih.
  exists {| reqProfile := populate d; reqCredentials := createCredentials d |},
         (createQueryParams d).
  unfold resourceUserCreate. run. fold d. run.
  assert (Hcred : Password (createCredentials d)
                  = Some {| Hash := None; Hook := Some {| HookType := pih |};
                            Value := EmptyString |}).
  { unfold createCredentials. fold pih.
    rewrite (bool_decide_eq_true_2 _ Hpih). case_bool_decide; reflexivity. }
  match goal with
  | |- context [Called ?c (client ?h ?c)] =>
      exists (client h c); destruct (client h c) as [user | code err]
  end.
  - run.
    match goal with
    | |- context [wTrace (?m ?w1).1] =>
        assert (Hm : emits (Forall (λ e, isCreateCall e = false)) m)
          by (unfold emits; repeat all_step);
        destruct (Hm w1 I) as (_ & rest & E & F)
    end.
    cbn [wTrace] in E. exists rest.
    split; [rewrite E, <- app_assoc; reflexivity | auto].
  - stop. exists []. auto.
Qed.

Lemma create_with_hook_witness :
  let w := Sample.hookCreate in
  GetS (wData w) "password_inline_hook" ≠ EmptyString
  ∧ ∃ body qp r rest,
      wTrace (resourceUserCreate Sample.allOk Sample.profileOf Sample.toList w).1
      = wTrace w ++ Called (CreateUser body qp) r :: rest
      ∧ Password (reqCredentials body)
        = Some {| Hash := None;
                  Hook := Some {| HookType := GetS (wData w) "password_inline_hook" |};
                  Value := EmptyString |}
      ∧ Forall (λ e, isCreateCall e = false) rest.
Proof.
  cbv zeta. split; [discriminate |].
  apply (create_with_hook Sample.allOk Sample.profileOf Sample.toList Sample.hookCreate).
  discriminate.
Defined.

(** ** Update: rejected status change *)

(** C7: an update whose new status is STAGED and whose status changed is
    rejected with the error that says so; nothing is called and the
    resource is left as it was. *)
Theorem update_to_staged_rejected client populate order (w : world) :
  GetS (wData w) "status" = userStatusStaged →
  HasChangeS (wData w) "status" = true →
  resourceUserUpdate client populate order w = (w, Err stagedUpdateError).
Proof.
  intros Hstatus Hchange. unfold resourceUserUpdate. run.
  rewrite Hstatus, Hchange. reflexivity.
Qed.

Lemma update_to_staged_rejected_witness :
  let w := Sample.stagedUpdate in
  GetS (wData w) "status" = userStatusStaged
  ∧ HasChangeS (wData w) "status" = true
  ∧ resourceUserUpdate Sample.allOk Sample.profileOf Sample.byElements w = (w, Err stagedUpdateError).
Proof.
  cbv zeta. split; [reflexivity | split; [reflexivity |]].
  apply (update_to_staged_rejected Sample.allOk Sample.profileOf Sample.byElements Sample.stagedUpdate);
    reflexivity.
Defined.

(** ** Update: password change *)

(** C1, as the specification states it, fails: [password] is one of the
    [profileKeys], so an update in which only the password changed (and
    [old_password] is supplied) also issues an update-user call. *)
Lemma password_change_issues_update_user :
  let w := Sample.passwordChanged in
  let d := wData w in
  rdNew d = Sample.strings (<["password" := "new-secret"]> (aStrings (rdState d)))
  ∧ rdState d = Sample.strings (aStrings (rdState d))
  ∧ GetS d "old_password" ≠ EmptyString
  ∧ existsb isUpdateUser
      (wTrace (resourceUserUpdate Sample.allOk Sample.profileOf Sample.byElements w).1) = true.
Proof.
  cbv zeta. split; [reflexivity | split; [reflexivity | split; [discriminate |]]].
  vm_compute. reflexivity.
Qed.

(** C1 (amended): an update that completes, in which the password changed,
    [old_password] is supplied, and neither the status, the roles, the
    groups, the password hash, the hook nor the recovery question or answer
    changed, fetches the user, then issues one update-user call that
    carries the rebuilt profile and no credentials, then one change-password
    call that carries [old_password] as the old and the new [password] as
    the new value; all that follows is the read-back of the user. *)
Theorem password_change_with_old_password client populate order (w : world) :
  let d := wData w in
  let id := rdId d in
  let profileOnly :=
    {| userId := EmptyString; userStatus := EmptyString;
       userProfile := Some (populate d); userCredentials := None |} in
  let change :=
    {| OldPassword := {| Hash := None; Hook := None; Value := GetS d "old_password" |};
       NewPassword := {| Hash := None; Hook := None; Value := GetS d "password" |} |} in
  HasChangeS d "password" = true →
  GetS d "old_password" ≠ EmptyString →
  HasChangeS d "status" = false →
  HasChangeSet d "admin_roles" = false →
  HasChangeSet d "group_memberships" = false →
  HasChangeBlocks d "password_hash" = false →
  HasChangeS d "password_inline_hook" = false →
  HasChangeS d "recovery_question" = false →
  HasChangeS d "recovery_answer" = false →
  (resourceUserUpdate client populate order w).2 = Ok tt →
  ∃ r1 r2 r3 lread,
    wTrace (resourceUserUpdate client populate order w).1
    = wTrace w ++ [ Called (GetUser id) r1;
                    Called (UpdateUser id profileOnly) r2;
                    Called (ChangePassword id change) r3 ] ++ lread
    ∧ Forall (λ e, isReadEvent e = true) lread.
Proof.
  intros d id profileOnly change Hpw Hold Hst Hroles Hgroups Hhash Hhook Hq Ha.
  unfold resourceUserUpdate. run. fold d.
  rewrite Hpw, Hst, Hroles, Hgroups, Hhash, Hhook, Hq, Ha.
  rewrite (hasProfileChange_password d Hpw), andb_false_r, andb_true_r.
  cbn [orb when failIf]. run. rewrite run_assoc. run.
  destruct (client (wTrace w) _) as [user | code err] eqn:E1; [| stop; discriminate].
  rewrite run_assoc. run.
  destruct (bool_decide (userStatus user = "PROVISIONED")); [stop; discriminate |].
  do 2 run.
  destruct (bool_decide (GetS d "status" = userStatusDeprovisioned));
    cbn [andb]; [stop; discriminate |].
  run. rewrite run_assoc. run. rewrite run_assoc. run.
  fold d id profileOnly.
  destruct (client (wTrace w ++ _) (UpdateUser _ _)) as [[] | code err] eqn:E2;
    [| stop; discriminate].
  do 3 run. rewrite run_assoc. run.
  unfold GetChangeS, GetOkS. fold d.
  rewrite (bool_decide_eq_true_2 _ Hold). cbn [when negb].
  rewrite run_assoc. rewrite run_assoc. run. fold id.
  change (getString (rdNew d) "password") with (GetS d "password").
  fold change.
  destruct (client ((wTrace w ++ _) ++ _) (ChangePassword _ _)) as [[] | code err] eqn:E3;
    [| stop; discriminate].
  do 3 run. intros _.
  match goal with
  | |- context [resourceUserRead client ?w1] =>
      destruct (resourceUserRead_events client w1 I) as (_ & lread & E & F)
  end.
  cbn [wTrace] in E.
  exists (Success user), (Success tt), (Success tt), lread.
  split; [| exact F]. rewrite E, <- !app_assoc. reflexivity.
Qed.

Lemma password_change_with_old_password_witness :
  let w := Sample.passwordChanged in
  let d := wData w in
  let id := rdId d in
  let profileOnly :=
    {| userId := EmptyString; userStatus := EmptyString;
       userProfile := Some (Sample.profileOf d); userCredentials := None |} in
  let change :=
    {| OldPassword := {| Hash := None; Hook := None; Value := GetS d "old_password" |};
       NewPassword := {| Hash := None; Hook := None; Value := GetS d "password" |} |} in
  (HasChangeS d "password" = true
   ∧ GetS d "old_password" ≠ EmptyString
   ∧ HasChangeS d "status" = false
   ∧ HasChangeSet d "admin_roles" = false
   ∧ HasChangeSet d "group_memberships" = false
   ∧ HasChangeBlocks d "password_hash" = false
   ∧ HasChangeS d "password_inline_hook" = false
   ∧ HasChangeS d "recovery_question" = false
   ∧ HasChangeS d "recovery_answer" = false
   ∧ (resourceUserUpdate Sample.allOk Sample.profileOf Sample.byElements w).2 = Ok tt)
  ∧ ∃ r1 r2 r3 lread,
      wTrace (resourceUserUpdate Sample.allOk Sample.profileOf Sample.byElements w).1
      = wTrace w ++ [ Called (GetUser id) r1;
                      Called (UpdateUser id profileOnly) r2;
                      Called (ChangePassword id change) r3 ] ++ lread
      ∧ Forall (λ e, isReadEvent e = true) lread.
Proof.
  cbv zeta. split.
  - repeat split; try discriminate; vm_compute; reflexivity.
  - apply (password_change_with_old_password
             Sample.allOk Sample.profileOf Sample.byElements Sample.passwordChanged);
      try discriminate; vm_compute; reflexivity.
Defined.

(** The run of the sample password change, event by event. *)
Example sample_password_change :
  wTrace (resourceUserUpdate Sample.allOk Sample.profileOf Sample.byElements Sample.passwordChanged).1
  = [ Called (GetUser "00u1") (Success Sample.remoteUser);
      Called (UpdateUser "00u1"
                {| userId := EmptyString; userStatus := EmptyString;
                   userProfile := Some {[ "login" := "a@b.com" ]};
                   userCredentials := None |})
             (Success tt);
      Called (ChangePassword "00u1"
                {| OldPassword := {| Hash := None; Hook := None;
                                     Value := "old-secret" |};
                   NewPassword := {| Hash := None; Hook := None;
                                     Value := "new-secret" |} |})
             (Success tt);
      Called (GetUser "00u1") (Success Sample.remoteUser);
      Called (setNonPrimitives Sample.remoteUser) (Success tt);
      Called (setAdminRoles "00u1") (Success tt) ].
Proof. vm_compute. reflexivity. Qed.

(** ** Update: roles *)

(** *** The role contract is kept by role-free steps before and after *)

(** Where an element that satisfies [p] sits in a list that starts, or
    ends, with elements that do not. *)
Section Splits.
Context {A : Type} (p : A → bool).

Lemma split_after (pre l l1 l2 : list A) (e : A) :
  Forall (λ x, p x = false) pre → p e = true →
  l1 ++ e :: l2 = pre ++ l →
  ∃ l1', l1 = pre ++ l1' ∧ l = l1' ++ e :: l2.
Proof.
  intros Hpre He. revert l1.
  induction Hpre as [| x pre Hx Hpre IH]; intros l1 E.
  - exists l1. auto.
  - destruct l1 as [| y l1]; cbn in E; injection E as -> E.
    + congruence.
    + destruct (IH _ E) as (l1' & -> & ->). exists l1'. auto.
Qed.

Lemma split_before (post l l1 l2 : list A) (e : A) :
  Forall (λ x, p x = false) post → p e = true →
  l1 ++ e :: l2 = l ++ post →
  ∃ l2', l2 = l2' ++ post ∧ l = l1 ++ e :: l2'.
Proof.
  intros Hpost He. revert l.
  induction l1 as [| y l1 IH]; intros l E.
  - destruct l as [| x l]; cbn in E.
    + subst post. apply Forall_cons in Hpost as [Hx _]. congruence.
    + injection E as -> E. exists l. auto.
  - destruct l as [| x l]; cbn in E.
    + subst post. apply Forall_cons in Hpost as [_ Hpost].
      apply Forall_app in Hpost as [_ Hpost].
      apply Forall_cons in Hpost as [Hx _]. congruence.
    + injection E as -> E. destruct (IH _ E) as (l2' & -> & ->). exists l2'. auto.
Qed.

End Splits.

Lemma removedRole_isRoleRemoval e x : removedRole e = Some x → isRoleRemoval e = true.
Proof. destruct e as [[] r |]; cbn; congruence. Qed.

Lemma noRoleChange_removal l :
  Forall noRoleChange l → Forall (λ e, isRoleRemoval e = false) l.
Proof. intros H. eapply Forall_impl; [exact H |]. intros e [He _]. exact He. Qed.

Lemma noRoleChange_addition l :
  Forall noRoleChange l → Forall (λ e, isRoleAddition e = false) l.
Proof. intros H. eapply Forall_impl; [exact H |]. intros e [_ He]. exact He. Qed.

Lemma rolesOk_nil d : rolesOk d [].
Proof.
  split; [| split].
  - exists [], []. auto.
  - intros l1 e l2 id role E. destruct l1; discriminate.
  - intros l1 e l2 E. destruct l1; discriminate.
Qed.

(** Events that neither remove nor add a role may come first. *)
Lemma rolesOk_prefix d pre l :
  Forall noRoleChange pre → rolesOk d l → rolesOk d (pre ++ l).
Proof.
  intros Hpre (Ha & Hb & Hc). split; [| split].
  - destruct Ha as (la & lb & -> & Hla & Hlb).
    exists (pre ++ la), lb. rewrite app_assoc. repeat split; [| exact Hlb].
    apply Forall_app. split; [apply noRoleChange_addition; exact Hpre | exact Hla].
  - intros l1 e l2 id role E He.
    destruct (split_after isRoleRemoval pre l l1 l2 e) as (l1' & -> & ->);
      [apply noRoleChange_removal; exact Hpre
      | eapply removedRole_isRoleRemoval; exact He | symmetry; exact E |].
    destruct (Hb l1' e l2 id role eq_refl He) as (Hid & el & roles & r & Hel & H).
    split; [exact Hid |]. exists el, roles, r. split; [| exact H].
    apply elem_of_app. auto.
  - intros l1 e l2 E He H404.
    destruct (split_after isRoleRemoval pre l l1 l2 e) as (l1' & -> & ->);
      [apply noRoleChange_removal; exact Hpre | exact He | symmetry; exact E |].
    exact (Hc l1' e l2 eq_refl He H404).
Qed.

(** And they may come last. *)
Lemma rolesOk_suffix d l post :
  rolesOk d l → Forall noRoleChange post → rolesOk d (l ++ post).
Proof.
  intros (Ha & Hb & Hc) Hpost. split; [| split].
  - destruct Ha as (la & lb & -> & Hla & Hlb).
    exists la, (lb ++ post). rewrite app_assoc. repeat split; [exact Hla |].
    apply Forall_app. split; [exact Hlb | apply noRoleChange_removal; exact Hpost].
  - intros l1 e l2 id role E He.
    destruct (split_before isRoleRemoval post l l1 l2 e) as (l2' & -> & ->);
      [apply noRoleChange_removal; exact Hpost
      | eapply removedRole_isRoleRemoval; exact He | symmetry; exact E |].
    exact (Hb l1 e l2' id role eq_refl He).
  - intros l1 e l2 E He H404.
    destruct (split_before isRoleRemoval post l l1 l2 e) as (l2' & -> & ->);
      [apply noRoleChange_removal; exact Hpost | exact He | symmetry; exact E |].
    destruct (Hc l1 e l2' eq_refl He H404) as (next & l3 & -> & Hnext).
    exists next, (l3 ++ post). auto.
Qed.

Lemma rolesOk_all d l : Forall noRoleChange l → rolesOk d l.
Proof.
  intros H. rewrite <- (app_nil_r l). apply rolesOk_prefix; [exact H | apply rolesOk_nil].
Qed.

(** *** The loop over the remote roles *)

Lemma justified_mono id toRemove role roles e :
  justified id toRemove roles e → justified id toRemove (role :: roles) e.
Proof.
  intros (Ha & r & Hr & H). split; [exact Ha |]. exists r. split; [| exact H].
  apply elem_of_cons. auto.
Qed.

(** The loop emits removals of listed roles whose type is to be removed,
    and it fails only on a removal that failed with a status other than
    404, which is then its last event. *)
Lemma removeRoles_spec client id toRemove roles w :
  ∃ rems,
    wTrace (removeRoles client id toRemove roles w).1 = wTrace w ++ rems
    ∧ Forall (justified id toRemove roles) rems
    ∧ match (removeRoles client id toRemove roles w).2 with
      | Ok _ => True
      | Err _ => ∃ rems' e, rems = rems' ++ [e] ∧ failureCode e ≠ Some 404
      end.
Proof.
  revert w. induction roles as [| role rest IH]; intros w.
  - exists []. cbn. rewrite app_nil_r. auto.
  - cbn [removeRoles]. unfold mbind, M_bind.
    destruct (contains toRemove (roleType role)) eqn:Hc; cbn [when].
    + unfold invoke. cbn [mret M_ret fst snd].
      set (c := RemoveRoleFromUser id (roleId role)).
      set (w1 := {| wData := wData w; wTrace := wTrace w ++ [Called c (client (wTrace w) c)] |}).
      assert (Hj : justified id toRemove (role :: rest) (Called c (client (wTrace w) c))).
      { split; [reflexivity |]. exists role. split; [apply elem_of_cons; auto |].
        split; [reflexivity |]. unfold contains in Hc.
        apply bool_decide_eq_true_1 in Hc. exact Hc. }
      assert (Hgo : ∀ w', wTrace w' = wTrace w1 →
                ∃ rems, wTrace (removeRoles client id toRemove rest w').1
                        = wTrace w ++ rems
                  ∧ Forall (justified id toRemove (role :: rest)) rems
                  ∧ match (removeRoles client id toRemove rest w').2 with
                    | Ok _ => True
                    | Err _ => ∃ rems' e, rems = rems' ++ [e] ∧ failureCode e ≠ Some 404
                    end).
      { intros w' Hw'. destruct (IH w') as (rems & E & F & L).
        exists (Called c (client (wTrace w) c) :: rems).
        rewrite E, Hw'. subst w1. cbn [wTrace]. rewrite <- app_assoc.
        split; [reflexivity |]. split.
        - constructor; [exact Hj |].
          eapply Forall_impl; [exact F |]. intros e. apply justified_mono.
        - destruct (removeRoles client id toRemove rest w').2; [exact I |].
          destruct L as (rems' & e & -> & Hne).
          exists (Called c (client (wTrace w) c) :: rems'), e. auto. }
      destruct (client (wTrace w) c) as [[] | code err] eqn:Hr; cbn [suppressErrorOn404].
      * cbn. apply Hgo. reflexivity.
      * destruct (bool_decide (code = 404)) eqn:Hcode; cbn.
        -- apply Hgo. reflexivity.
        -- exists [Called c (Failure code err)]. split; [reflexivity |].
           split; [constructor; [exact Hj | constructor] |].
           exists [], (Called c (Failure code err)). split; [reflexivity |].
           cbn. apply bool_decide_eq_false_1 in Hcode. congruence.
    + cbn [mret M_ret]. destruct (IH w) as (rems & E & F & L).
      exists rems. split; [exact E |]. split; [| exact L].
      eapply Forall_impl; [exact F |]. intros e. apply justified_mono.
Qed.

(** *** The update as a whole *)

Lemma readEvent_noRoleChange e : isReadEvent e = true → noRoleChange e.
Proof. destruct e as [[] r |]; cbn; intros H; split; cbn; congruence. Qed.

Lemma pre_bind {A B} d0 (m : M A) (f : A → M B) :
  steps (sameRoles d0) (sameRoles d0) (Forall noRoleChange) m →
  (∀ a, steps (sameRoles d0) (λ _, True) (rolesOk d0) (f a)) →
  steps (sameRoles d0) (λ _, True) (rolesOk d0) (m ≫= f).
Proof.
  intros Hm Hf. eapply steps_bind; [exact Hm | exact Hf | auto | |].
  - apply rolesOk_all.
  - intros l1 l2 H1 H2. apply rolesOk_prefix; assumption.
Qed.

(** The role step: the listing, the removals, and then either the addition
    or nothing, when the last removal failed. *)
Lemma rolesOk_block (order : SetOrder) d0 roles rems tail :
  let lst := Called (listUserOnlyRoles (rdId d0)) (Success roles) in
  let delta := getSet (rdState d0) "admin_roles" ∖ getSet (rdNew d0) "admin_roles" in
  Forall (justified (rdId d0) (setList order delta) roles) rems →
  ((∃ ev, tail = [ev] ∧ isRoleAddition ev = true)
   ∨ (tail = [] ∧ ∃ rems' e, rems = rems' ++ [e] ∧ failureCode e ≠ Some 404)) →
  rolesOk d0 (lst :: rems ++ tail).
Proof.
  intros lst delta Hrems Htail.
  assert (Htl : Forall (λ e, isRoleRemoval e = false) tail).
  { destruct Htail as [(ev & -> & Hev) | (-> & _)]; [| constructor].
    constructor; [| constructor]. destruct ev as [[] r |]; cbn in *; congruence. }
  split; [| split].
  - exists (lst :: rems), tail. split; [reflexivity |]. split; [| exact Htl].
    constructor; [reflexivity |].
    eapply Forall_impl; [exact Hrems |]. intros e [He _]. exact He.
  - intros l1 e l2 id role E He.
    pose proof (removedRole_isRoleRemoval _ _ He) as Hrem.
    assert (Hin : e ∈ lst :: rems ++ tail).
    { rewrite E. apply elem_of_app. right. apply elem_of_cons. auto. }
    apply elem_of_cons in Hin as [-> | Hin]; [discriminate He |].
    apply elem_of_app in Hin as [Hin | Hin].
    2: { rewrite Forall_forall in Htl. specialize (Htl _ Hin). congruence. }
    rewrite Forall_forall in Hrems.
    destruct (Hrems _ Hin) as (_ & r & Hr & Hrr & Ht).
    rewrite Hrr in He. injection He as <- <-.
    split; [reflexivity |]. exists lst, roles, r.
    split; [| split; [reflexivity | split; [exact Hr | split; [reflexivity |]]]].
    + destruct l1 as [| x l1]; cbn in E; injection E as E1 E2.
      * subst e. discriminate Hrem.
      * subst x. apply elem_of_cons. auto.
    + rewrite (setList_members order) in Ht. apply elem_of_elements in Ht. exact Ht.
  - intros l1 e l2 E He H404.
    destruct (split_after isRoleRemoval [lst] (rems ++ tail) l1 l2 e)
      as (l1' & -> & E1);
      [constructor; [reflexivity | constructor] | exact He | symmetry; exact E |].
    destruct (split_before isRoleRemoval tail rems l1' l2 e) as (l2' & -> & ->);
      [exact Htl | exact He | symmetry; exact E1 |].
    destruct l2' as [| next l2'].
    + destruct Htail as [(ev & -> & Hev) | (-> & rems' & e' & Hlast & Hne)].
      * exists ev, []. auto.
      * apply app_inj_tail in Hlast as [_ <-]. congruence.
    + exists next, (l2' ++ tail). split; [reflexivity | left].
      rewrite Forall_forall in Hrems.
      destruct (Hrems next) as (_ & r & _ & Hr & _).
      { apply elem_of_app. right. apply elem_of_cons. right. apply elem_of_cons. auto. }
      eapply removedRole_isRoleRemoval. exact Hr.
Qed.

(** The steps before the role step keep the identifier and the role sets of
    the resource and touch no role; the steps after it touch no role. *)
Lemma update_steps client populate order d0 :
  steps (sameRoles d0) (λ _, True) (rolesOk d0) (resourceUserUpdate client populate order).
Proof.
  unfold resourceUserUpdate. cbv zeta.
  do 6 (apply pre_bind; [solve [repeat all_step] | intros ?]).
  eapply (steps_bind _ _ _ (rolesOk d0) (Forall noRoleChange) (rolesOk d0)).
  3: auto. 3: auto. 3: { intros l1 l2 H1 H2. apply rolesOk_suffix; assumption. }
  2: { intros _. repeat all_step. }
  intros w Hw. split; [exact I |].
  destruct (HasChangeSet a "admin_roles"); cbn [when].
  2: { exists []. cbn. rewrite app_nil_r. split; [reflexivity | apply rolesOk_nil]. }
  destruct Hw as (Hid & Hold & Hnew).
  erewrite run_ok by reflexivity. cbv beta.
  unfold GetChangeSet. rewrite Hid, Hold, Hnew. cbv beta iota zeta.
  erewrite run_ok by reflexivity. cbv beta. cbn [wData wTrace].
  set (lc := listUserOnlyRoles (rdId d0)).
  destruct (client (wTrace w) lc) as [roles | code err].
  2: { erewrite run_err by reflexivity. cbn [fst wTrace].
       eexists. split; [reflexivity |]. apply rolesOk_all.
       constructor; [split; reflexivity | constructor]. }
  erewrite run_ok by reflexivity. cbv beta.
  match goal with
  | |- context [(removeRoles client ?id ?rs roles ≫= _) ?w1] =>
      destruct (removeRoles_spec client id rs roles w1) as (rems & E & F & L);
      destruct (removeRoles client id rs roles w1) as [w2 [[] | msg]] eqn:Hloop
  end; cbn [fst snd wTrace] in E, L.
  - erewrite run_ok by exact Hloop. cbv beta.
    erewrite run_ok by reflexivity. cbv beta.
    match goal with
    | |- context [orFail _ ?r ?w3] => destruct r as [[] | code err]
    end; cbn [orFail mret M_ret fail fst wTrace]; rewrite E, <- !app_assoc;
      (eexists; split; [reflexivity |]);
      (apply (rolesOk_block order d0 roles rems [_]);
       [exact F | left; eexists; split; reflexivity]).
  - erewrite run_err by exact Hloop. cbn [fst]. rewrite E, <- !app_assoc.
    exists (Called lc (Success roles) :: rems ++ []).
    split; [rewrite app_nil_r; reflexivity |].
    apply (rolesOk_block order d0 roles rems []); [exact F | right; auto].
Qed.

(** C9: in every update (so in every update in which the role membership
    changed) the role-removal calls all come before any role-addition call;
    a role is removed only if the listing call of this update returned it
    and its type is in the removal delta (prior roles minus new roles); and a
    removal call answered with 404 does not stop the update: the next role
    call (a further removal, or the addition) follows it. *)
Theorem update_roles client populate order (w : world) :
  let d := wData w in
  let removal := getSet (rdState d) "admin_roles" ∖ getSet (rdNew d) "admin_roles" in
  ∃ l, wTrace (resourceUserUpdate client populate order w).1 = wTrace w ++ l
    ∧ (∃ la lb, l = la ++ lb
                ∧ Forall (λ e, isRoleAddition e = false) la
                ∧ Forall (λ e, isRoleRemoval e = false) lb)
    ∧ (∀ l1 e l2 id role,
         l = l1 ++ e :: l2 → removedRole e = Some (id, role) →
         id = rdId d
         ∧ ∃ el roles r,
             el ∈ l1 ∧ listedRoles el = Some (rdId d, roles)
             ∧ r ∈ roles ∧ roleId r = role ∧ roleType r ∈ removal)
    ∧ (∀ l1 e l2,
         l = l1 ++ e :: l2 → isRoleRemoval e = true → failureCode e = Some 404 →
         ∃ next l3, l2 = next :: l3
                    ∧ (isRoleRemoval next = true ∨ isRoleAddition next = true)).
Proof.
  intros d removal.
  destruct (update_steps client populate order d w) as (_ & l & E & H).
  - repeat split.
  - exists l. split; [exact E | exact H].
Qed.

(** *** Sample runs *)

(** APP_ADMIN is replaced by HELP_DESK_ADMIN while the remote system answers
    every removal with 404: the update goes on to the addition. *)
Example sample_roles_gone :
  wTrace (resourceUserUpdate Sample.rolesGone Sample.profileOf Sample.byElements Sample.rolesChanged).1
  = [ Called (listUserOnlyRoles "00u1") (Success Sample.remoteRoles);
      Called (RemoveRoleFromUser "00u1" "ra1") (Failure 404 "Not found");
      Called (assignAdminRolesToUser "00u1" ["HELP_DESK_ADMIN"] false) (Success tt);
      Called (GetUser "00u1") (Success Sample.remoteUser);
      Called (setNonPrimitives Sample.remoteUser) (Success tt);
      Called (setAdminRoles "00u1") (Success tt) ]
  ∧ (resourceUserUpdate Sample.rolesGone Sample.profileOf Sample.byElements Sample.rolesChanged).2
    = Ok tt.
Proof. split; vm_compute; reflexivity. Qed.

(** With any other failure of the removal the update stops there. *)
Example sample_roles_refused :
  wTrace (resourceUserUpdate Sample.rolesRefused Sample.profileOf Sample.byElements Sample.rolesChanged).1
  = [ Called (listUserOnlyRoles "00u1") (Success Sample.remoteRoles);
      Called (RemoveRoleFromUser "00u1" "ra1") (Failure 403 "Forbidden") ]
  ∧ (resourceUserUpdate Sample.rolesRefused Sample.profileOf Sample.byElements Sample.rolesChanged).2
    = Err "failed to remove user's role: Forbidden".
Proof. split; vm_compute; reflexivity. Qed.

(** * Further properties *)

(** ** Status normalisation *)

(** X1: [mapStatus] is idempotent and never returns PASSWORD_EXPIRED or
    RECOVERY: a mapped status is stable under mapping. *)
Theorem mapStatus_idempotent (X : string) :
  mapStatus (mapStatus X) = mapStatus X
  ∧ mapStatus X ≠ userStatusPasswordExpired
  ∧ mapStatus X ≠ userStatusRecovery.
Proof.
  unfold mapStatus.
  destruct (bool_decide (X = userStatusPasswordExpired)) eqn:Hpe;
    destruct (bool_decide (X = userStatusRecovery)) eqn:Hrec; cbn [orb];
    try (repeat split; discriminate || reflexivity).
  rewrite Hpe, Hrec. cbn [orb].
  apply bool_decide_eq_false_1 in Hpe, Hrec. auto.
Qed.

(** ** Listing applications *)

Lemma followPages_all {App : Type} (resp : AppList.Response App) (acc : list App) :
  AppList.followPages acc resp
  = match AppList.failure resp with
    | Some err => Err err
    | None => Ok (acc ++ concat (AppList.pagesOf resp))
    end.
Proof.
  revert acc. induction resp as [| err | nextApps resp IH]; intros acc; cbn.
  - rewrite app_nil_r. reflexivity.
  - reflexivity.
  - rewrite IH. destruct (AppList.failure resp); [reflexivity |].
    rewrite app_assoc. reflexivity.
Qed.

(** X2: [listApps] follows the pages to the end: when no request fails it
    returns the applications of all pages, in order, first page first; when
    the first request or any later one fails it returns that error and none
    of the applications fetched so far. *)
Theorem listApps_pages {App : Type} (ListApplications : AppList.Lister App)
    (filters : option AppFilter.appFilters) (limit : Z) :
  AppList.listApps ListApplications filters limit
  = match ListApplications (AppList.listParams filters limit) with
    | Failure _ err => Err err
    | Success (apps, resp) =>
        match AppList.failure resp with
        | Some err => Err err
        | None => Ok (apps ++ concat (AppList.pagesOf resp))
        end
    end.
Proof.
  unfold AppList.listApps.
  destruct (ListApplications _) as [[apps resp] | code err]; [| reflexivity].
  apply followPages_all.
Qed.

(** X3: the query of a search built by [getAppFilters]: the search term is
    the label when it is given and the label prefix otherwise, the filter is
    the status-equality expression when [active_only] is set, and the id
    takes no part in it, so a search by id alone sends an empty term. *)
Theorem listParams_of_filters (d : ResourceData) (f : AppFilter.appFilters) (limit : Z) :
  AppFilter.getAppFilters d = Ok f →
  AppList.listParams (Some f) limit
  = {| AppList.Q := if bool_decide (GetS d "label" ≠ EmptyString)
                    then GetS d "label" else GetS d "label_prefix";
       AppList.Filter := if GetB d "active_only"
                         then AppFilter.statusEq else EmptyString;
       AppList.Limit := limit |}.
Proof.
  unfold AppFilter.getAppFilters.
  destruct (_ && _); [discriminate |].
  destruct (GetB d "active_only"); intros [= <-]; reflexivity.
Qed.

Lemma listParams_of_filters_witness :
  let d := Sample2.search in
  let f := {| AppFilter.Status := AppFilter.statusEq; AppFilter.ID := EmptyString;
              AppFilter.Label := EmptyString; AppFilter.LabelPrefix := "git" |} in
  AppFilter.getAppFilters d = Ok f
  ∧ AppList.listParams (Some f) 200
    = {| AppList.Q := if bool_decide (GetS d "label" ≠ EmptyString)
                      then GetS d "label" else GetS d "label_prefix";
         AppList.Filter := if GetB d "active_only"
                           then AppFilter.statusEq else EmptyString;
         AppList.Limit := 200 |}.
Proof.
  cbv zeta. split; [reflexivity |].
  apply (listParams_of_filters Sample2.search). reflexivity.
Defined.

(** ** Delete: result *)

(** X4: a delete never touches the resource, and it fails exactly when one
    of its calls fails, with the error of that call after the words of
    [ensureUserDelete]; a second call is judged only when the recorded
    status is not DEPROVISIONED. *)
Theorem delete_result (client : Client) (w : world) :
  let d := wData w in
  let del := DeactivateOrDeleteUser (rdId d) in
  let first := client (wTrace w) del in
  let second := client (wTrace w ++ [Called del first]) del in
  let failed (err : string) : result unit :=
    Err ("failed to deprovision or delete user from Okta: " +:+ err) in
  wData (resourceUserDelete client w).1 = d
  ∧ (resourceUserDelete client w).2
    = match first with
      | Failure _ err => failed err
      | Success _ =>
          if bool_decide (GetS d "status" = userStatusDeprovisioned)
          then Ok tt
          else match second with
               | Failure _ err => failed err
               | Success _ => Ok tt
               end
      end.
Proof.
  intros d del first second failed. subst d del first second failed.
  unfold resourceUserDelete. run. unfold ensureUserDelete.
  case_bool_decide; cbn [deletePasses]; run;
    destruct (client (wTrace w) _) as [[] | code err];
    try (stop; split; reflexivity).
  - run. split; reflexivity.
  - run. cbn [deletePasses]. run.
    destruct (client (wTrace w ++ _) _) as [[] | code err];
      [run | stop]; split; reflexivity.
Qed.

(** ** Read *)

Lemma GetB_SetS k v d k' : GetB (SetS k v d) k' = GetB d k'.
Proof. reflexivity. Qed.

Lemma GetSet_SetS k v d k' : GetSet (SetS k v d) k' = GetSet d k'.
Proof. reflexivity. Qed.

(** X5: a read that finds the user gone (404) clears the identifier of the
    resource and succeeds, after the one fetch. *)
Theorem read_user_gone (client : Client) (w : world) (err : string) :
  let get := GetUser (rdId (wData w)) in
  client (wTrace w) get = Failure 404 err →
  resourceUserRead client w
  = ({| wData := SetId EmptyString (wData w);
        wTrace := wTrace w ++ [Called get (Failure 404 err); IdSet EmptyString] |},
     Ok tt).
Proof.
  intros get H. unfold resourceUserRead. run. fold get. run. rewrite H.
  cbn [suppressErrorOn404]. rewrite bool_decide_eq_true_2 by reflexivity.
  unfold setId. cbn [wData wTrace]. rewrite <- app_assoc. reflexivity.
Qed.

Lemma read_user_gone_witness :
  let w := Sample.passwordChanged in
  let get := GetUser (rdId (wData w)) in
  Sample2.userGone (wTrace w) get = Failure 404 "Not found"
  ∧ resourceUserRead Sample2.userGone w
    = ({| wData := SetId EmptyString (wData w);
          wTrace := wTrace w ++ [Called get (Failure 404 "Not found");
                                 IdSet EmptyString] |},
       Ok tt).
Proof.
  cbv zeta. split; [reflexivity |].
  apply (read_user_gone Sample2.userGone Sample.passwordChanged). reflexivity.
Defined.

(** X6: a read whose fetch fails with any other status fails with that
    error and leaves the resource, identifier included, as it was. *)
Theorem read_fetch_fails (client : Client) (w : world) (code : nat) (err : string) :
  let get := GetUser (rdId (wData w)) in
  client (wTrace w) get = Failure code err →
  code ≠ 404 →
  resourceUserRead client w
  = ({| wData := wData w;
        wTrace := wTrace w ++ [Called get (Failure code err)] |},
     Err ("failed to get user: " +:+ err)).
Proof.
  intros get H Hcode. unfold resourceUserRead. run. fold get. run. rewrite H.
  cbn [suppressErrorOn404]. rewrite (bool_decide_eq_false_2 _ Hcode). reflexivity.
Qed.

Lemma read_fetch_fails_witness :
  let w := Sample.passwordChanged in
  let get := GetUser (rdId (wData w)) in
  (Sample2.fetchFails (wTrace w) get = Failure 500 "Internal error" ∧ 500 ≠ 404)
  ∧ resourceUserRead Sample2.fetchFails w
    = ({| wData := wData w;
          wTrace := wTrace w ++ [Called get (Failure 500 "Internal error")] |},
       Err ("failed to get user: " +:+ "Internal error")).
Proof.
  cbv zeta. split; [split; [reflexivity | discriminate] |].
  apply (read_fetch_fails Sample2.fetchFails Sample.passwordChanged);
    [reflexivity | discriminate].
Defined.

(** X7: with [skip_roles] set and no group memberships in the resource, a
    read whose fetch succeeds calls nothing but the fetch and the writing of
    the fetched properties: the roles and groups are not asked for. *)
Theorem read_skips_roles_and_groups (client : Client) (w : world) (user : User) :
  let d := wData w in
  let get := GetUser (rdId d) in
  let w1 := wTrace w ++ [Called get (Success user)] in
  client (wTrace w) get = Success user →
  GetB d "skip_roles" = true →
  GetSet d "group_memberships" = ∅ →
  wTrace (resourceUserRead client w).1
  = w1 ++ [Called (setNonPrimitives user) (client w1 (setNonPrimitives user))].
Proof.
  intros d get w1 Hget Hskip Hgroups. unfold resourceUserRead. run. fold d get.
  run. rewrite Hget. cbn [suppressErrorOn404]. run. run. fold w1.
  destruct (client w1 (setNonPrimitives user)) as [[] | code err];
    [| stop; reflexivity].
  do 2 run.
  rewrite GetB_SetS. fold d. rewrite Hskip. cbn [negb]. do 2 run.
  unfold GetOkSet. cbn [snd]. rewrite GetSet_SetS. fold d.
  rewrite Hgroups, bool_decide_eq_false_2 by (intros H; apply H; reflexivity).
  reflexivity.
Qed.

Lemma read_skips_roles_and_groups_witness :
  let w := Sample3.skipRoles in
  let d := wData w in
  let get := GetUser (rdId d) in
  let w1 := wTrace w ++ [Called get (Success Sample.remoteUser)] in
  (Sample.allOk (wTrace w) get = Success Sample.remoteUser
   ∧ GetB d "skip_roles" = true
   ∧ GetSet d "group_memberships" = ∅)
  ∧ wTrace (resourceUserRead Sample.allOk w).1
    = w1 ++ [Called (setNonPrimitives Sample.remoteUser)
                    (Sample.allOk w1 (setNonPrimitives Sample.remoteUser))].
Proof.
  cbv zeta. split; [repeat split |].
  apply (read_skips_roles_and_groups Sample.allOk Sample3.skipRoles Sample.remoteUser);
    reflexivity.
Defined.

(** ** Import *)

(** X8: an import fetches the user by the identifier or e-mail address it
    was given. When the fetch fails, with 404 too, the import fails with
    that error and nothing is written; when it succeeds, the identifier of
    the remote user is written into the resource next, and the roles are
    then read for that identifier. *)
Theorem import_resolves_identifier (client : Client) (w : world) :
  let get := GetUser (rdId (wData w)) in
  let w1 := wTrace w ++ [Called get (client (wTrace w) get)] in
  match client (wTrace w) get with
  | Failure _ err =>
      importUserState client w = ({| wData := wData w; wTrace := w1 |}, Err err)
  | Success user =>
      let roles := setAdminRoles (userId user) in
      let w2 := w1 ++ [IdSet (userId user)] in
      importUserState client w
      = ({| wData := SetId (userId user) (wData w);
            wTrace := w2 ++ [Called roles (client w2 roles)] |},
         match client w2 roles with
         | Success _ => Ok tt
         | Failure _ err => Err ("failed to set user's roles: " +:+ err)
         end)
  end.
Proof.
  intros get w1. subst w1. unfold importUserState. run. fold get. run.
  destruct (client (wTrace w) get) as [user | code err]; [| stop; reflexivity].
  do 4 run. cbn [SetId rdId].
  destruct (client _ (setAdminRoles (userId user))) as [[] | code err]; reflexivity.
Qed.

(** ** More rules for runs *)

Section MoreSteps.
Context (I : ResourceData → Prop) (φ : event → Prop).

(** What [getData] returns satisfies the invariant. *)
Lemma all_getData_bind {B} (f : ResourceData → M B) :
  (∀ d, I d → steps I I (Forall φ) (f d)) → steps I I (Forall φ) (getData ≫= f).
Proof. intros H w Hw. exact (H (wData w) Hw w Hw). Qed.

(** A guarded step is looked at only when its guard holds. *)
Lemma all_when_true b m :
  (b = true → steps I I (Forall φ) m) → steps I I (Forall φ) (when b m).
Proof. intros H. destruct b; [apply H; reflexivity | apply all_ret]. Qed.

(** The last step may break the invariant. *)
Lemma all_bind_last {A B} (m : M A) (f : A → M B) :
  steps I I (Forall φ) m → (∀ a, steps I (λ _, True) (Forall φ) (f a)) →
  steps I (λ _, True) (Forall φ) (m ≫= f).
Proof.
  intros Hm Hf. eapply steps_bind; eauto. intros. apply Forall_app; auto.
Qed.

End MoreSteps.

Lemma emits_onError {A} (φ : event → Prop) (m : M A) :
  emits (Forall φ) m → onError φ m.
Proof.
  intros H w. destruct (H w Logic.I) as (_ & l & E & F). exists l. auto.
Qed.

Lemma onError_bind {A B} (φ : event → Prop) (m : M A) (f : A → M B) :
  emits (Forall φ) m → (∀ a, onError φ (f a)) → onError φ (m ≫= f).
Proof.
  intros Hm Hf w. unfold mbind, M_bind.
  destruct (Hm w Logic.I) as (_ & l1 & E1 & F1).
  destruct (m w) as [w1 [a | e]]; cbn in E1.
  - destruct (Hf a w1) as (l2 & E2 & F2).
    exists (l1 ++ l2). rewrite E2, E1, app_assoc. split; [reflexivity |].
    intros msg Hmsg. apply Forall_app. split; [exact F1 | exact (F2 msg Hmsg)].
  - exists l1. cbn. auto.
Qed.

(** A read that fails has not written the identifier. *)
Lemma read_onError client :
  onError (λ e, isIdSet e = false) (resourceUserRead client).
Proof.
  unfold resourceUserRead.
  apply onError_bind; [unfold emits; repeat all_step | intros d].
  apply onError_bind; [unfold emits; repeat all_step | intros r].
  destruct (suppressErrorOn404 r);
    [apply emits_onError; unfold emits; repeat all_step |].
  destruct r as [user | code err].
  - apply emits_onError; unfold emits; repeat all_step.
  - intros w. eexists. split; [reflexivity |]. discriminate.
Qed.

Lemma steps_keptOnError {A} (I : ResourceData → Prop) (P : list event → Prop) (m : M A) :
  steps I I P m → keptOnError I m.
Proof. intros H w Hw msg _. exact (proj1 (H w Hw)). Qed.

Lemma keptOnError_bind {A B} (I : ResourceData → Prop) (P : list event → Prop)
    (m : M A) (f : A → M B) :
  steps I I P m → (∀ a, keptOnError I (f a)) → keptOnError I (m ≫= f).
Proof.
  intros Hm Hf w Hw msg. unfold mbind, M_bind.
  pose proof (proj1 (Hm w Hw)) as H1.
  destruct (m w) as [w1 [a | e]]; cbn in H1.
  - apply (Hf a w1 H1).
  - intros _. exact H1.
Qed.

(** A read that fails leaves the identifier as it was: the identifier is
    cleared only when the user is gone, and then the read succeeds. *)
Lemma read_keptOnError client id :
  keptOnError (λ d, rdId d = id) (resourceUserRead client).
Proof.
  unfold resourceUserRead.
  eapply (keptOnError_bind _ (Forall (λ _, True))); [repeat all_step | intros d].
  eapply (keptOnError_bind _ (Forall (λ _, True))); [repeat all_step | intros r].
  destruct (suppressErrorOn404 r);
    [eapply (steps_keptOnError _ (Forall (λ _, True))); repeat all_step |].
  destruct r as [user | code err].
  - eapply (steps_keptOnError _ (Forall (λ _, True))); repeat all_step.
  - intros w _ msg. discriminate.
Qed.

(** ** Create: failure and the identifier *)

(** X9: when the create call fails, the create fails with that error after
    the words of the source; nothing else is called and the resource keeps
    no identifier: it is left as it was. *)
Theorem create_call_fails (client : Client) populate conv (w : world)
    (code : nat) (err : string) :
  let d := wData w in
  let create :=
    CreateUser {| reqProfile := populate d; reqCredentials := createCredentials d |}
               (createQueryParams d) in
  client (wTrace w) create = Failure code err →
  resourceUserCreate client populate conv w
  = ({| wData := d; wTrace := wTrace w ++ [Called create (Failure code err)] |},
     Err ("failed to create user: " +:+ err)).
Proof.
  intros d create H. unfold resourceUserCreate. run. fold d create. run.
  rewrite H. reflexivity.
Qed.

Lemma create_call_fails_witness :
  let w := Sample.stagedCreate in
  let d := wData w in
  let create :=
    CreateUser {| reqProfile := Sample.profileOf d;
                  reqCredentials := createCredentials d |}
               (createQueryParams d) in
  Sample3.createFails (wTrace w) create = Failure 400 "Bad request"
  ∧ resourceUserCreate Sample3.createFails Sample.profileOf Sample.toList w
    = ({| wData := d; wTrace := wTrace w ++ [Called create (Failure 400 "Bad request")] |},
       Err ("failed to create user: " +:+ "Bad request")).
Proof.
  cbv zeta. split; [reflexivity |].
  apply (create_call_fails Sample3.createFails Sample.profileOf Sample.toList
                           Sample.stagedCreate).
  reflexivity.
Defined.

(** X10: in every create, whatever the status, roles and groups asked for,
    the create call is the first event, with [activate] false for the status
    STAGED and unset otherwise; when it succeeds the identifier it returned
    is written into the resource as the next event, and when the create then
    ends in an error no later event writes the identifier and the resource
    that the create leaves holds the identifier of the user that was
    created. *)
Theorem create_records_identifier (client : Client) populate conv (w : world) :
  let d := wData w in
  let activate :=
    if bool_decide (GetS d "status" = userStatusStaged) then Some false else None in
  let create :=
    CreateUser {| reqProfile := populate d; reqCredentials := createCredentials d |}
               {| Activate := activate |} in
  let final := resourceUserCreate client populate conv w in
  ∃ rest,
    wTrace final.1 = wTrace w ++ Called create (client (wTrace w) create) :: rest
    ∧ match client (wTrace w) create with
      | Success user =>
          ∃ rest', rest = IdSet (userId user) :: rest'
                   ∧ (∀ msg, final.2 = Err msg →
                             Forall (λ e, isIdSet e = false) rest'
                             ∧ rdId (wData final.1) = userId user)
      | Failure _ _ => rest = []
      end.
Proof.
  intros d activate create final. subst final.
  assert (Hq : createQueryParams d = {| Activate := activate |}).
  { unfold createQueryParams. subst activate. case_bool_decide; reflexivity. }
  unfold resourceUserCreate. run. fold d. rewrite Hq. fold create. run.
  destruct (client (wTrace w) create) as [user | code err];
    [| stop; exists []; split; reflexivity].
  do 2 run.
  match goal with
  | |- context [wTrace (?m ?w1).1] =>
      assert (Hm : onError (λ e, isIdSet e = false) m);
      [| assert (Hk : keptOnError (λ d, rdId d = userId user) m);
         [| destruct (Hm w1) as (rest & E & F); pose proof (Hk w1 eq_refl) as K]]
  end.
  { do 5 (apply onError_bind; [unfold emits; repeat all_step | intros ?]).
    apply read_onError. }
  { do 5 (eapply (keptOnError_bind _ (Forall (λ _, True)));
          [repeat all_step | intros ?]).
    apply read_keptOnError. }
  cbn [wTrace] in E. exists (IdSet (userId user) :: rest).
  split; [rewrite E, <- !app_assoc; reflexivity |].
  exists rest. split; [reflexivity |]. intros msg Hmsg. split; [eauto |].
  exact (K msg Hmsg).
Qed.

(** A create whose status change is refused after the user was created:
    the create fails and the resource holds the identifier of the user. *)
Example sample_create_keeps_identifier :
  let final := resourceUserCreate Sample3.statusRefused Sample.profileOf Sample.toList
                                  Sample3.suspendedCreate in
  final.2 = Err ("failed to update user status: " +:+ "Forbidden")
  ∧ rdId (wData Sample3.suspendedCreate) = EmptyString
  ∧ rdId (wData final.1) = "00u1".
Proof. cbv zeta. repeat split; vm_compute; reflexivity. Qed.

(** ** The order of the steps *)

Section Ranks.
Context (rank : event → option nat).

Lemma ranked_nil lo hi : ranked rank lo hi [].
Proof. split; constructor. Qed.

Lemma ranked_single k l : Forall (rankIs rank k) l → ranked rank k k l.
Proof.
  unfold ranked, ranks, rankIs.
  induction 1 as [| e l He Hl [IH1 IH2]]; [split; constructor |].
  cbn. destruct (rank e) as [n |]; [subst n | auto].
  split; [| constructor; [lia | exact IH2]].
  constructor; [exact IH1 |].
  eapply Forall_impl; [exact IH2 |]. intros n ?. cbn in *. lia.
Qed.

Lemma ranked_weaken lo hi lo' hi' l :
  ranked rank lo hi l → (lo' ≤ lo)%nat → (hi ≤ hi')%nat → ranked rank lo' hi' l.
Proof.
  intros [Hs Hb] Hlo Hhi. split; [exact Hs |].
  eapply Forall_impl; [exact Hb |]. intros n ?. cbn in *. lia.
Qed.

Lemma ranked_app a b c d l1 l2 :
  ranked rank a b l1 → ranked rank c d l2 → (b ≤ c)%nat →
  StronglySorted le (ranks rank (l1 ++ l2)).
Proof.
  intros [Hs1 Hb1] [Hs2 Hb2] Hbc. unfold ranks. rewrite omap_app.
  apply StronglySorted_app_2; [| exact Hs1 | exact Hs2].
  intros x1 x2 H1 H2. rewrite Forall_forall in Hb1, Hb2.
  specialize (Hb1 _ H1). specialize (Hb2 _ H2). cbn in *. lia.
Qed.

(** Two steps in a row: the ranks of the first lie below those of the
    second. *)
Lemma ranked_bind {A B} (I : ResourceData → Prop) a b c d (m : M A) (f : A → M B) :
  steps I I (ranked rank a b) m → (∀ x, steps I I (ranked rank c d) (f x)) →
  (a ≤ c)%nat → (b ≤ c)%nat → (b ≤ d)%nat →
  steps I I (ranked rank a d) (m ≫= f).
Proof.
  intros Hm Hf Hac Hbc Hbd. eapply steps_bind; [exact Hm | exact Hf | auto | |].
  - intros l H. eapply ranked_weaken; [exact H | lia | lia].
  - intros l1 l2 H1 H2. split; [eapply ranked_app; eassumption |].
    unfold ranks. rewrite omap_app. apply Forall_app.
    destruct H1 as [_ H1], H2 as [_ H2]. split.
    + eapply Forall_impl; [exact H1 |]. intros n ?. cbn in *. lia.
    + eapply Forall_impl; [exact H2 |]. intros n ?. cbn in *. lia.
Qed.

Lemma ranked_leaf {A} (I : ResourceData → Prop) k (m : M A) :
  steps I I (Forall (rankIs rank k)) m → steps I I (ranked rank k k) m.
Proof.
  intros H. eapply steps_weaken; [exact H | auto | auto |]. apply ranked_single.
Qed.

Lemma ranked_when (I : ResourceData → Prop) lo hi b m :
  steps I I (ranked rank lo hi) m → steps I I (ranked rank lo hi) (when b m).
Proof.
  intros H. destruct b; [exact H |].
  intros w Hw. split; [exact Hw |]. exists []. cbn. rewrite app_nil_r.
  split; [reflexivity | apply ranked_nil].
Qed.

End Ranks.

(** One step of a proof that every event of a run has a given rank. *)
Ltac rank_step :=
  first
    [ apply all_invoke; intros ?; unfold rankIs; cbn;
      repeat match goal with
             | |- context [if ?b then _ else _] =>
                 match type of b with bool => destruct b end
             end;
      cbn; solve [reflexivity | exact Logic.I]
    | all_step ].

(** Sequencing with a step whose events all have the rank [k]. *)
Ltac leaf_then rank k c d :=
  apply (ranked_bind rank _ k k c d);
  [apply ranked_leaf; solve [repeat rank_step] | intros ? | lia | lia | lia].

(** ** Create: order and guards of the follow-up steps *)

(** X11: the calls of every create come in the order of the source: the
    create call, then the assignment of roles, then of groups, then the
    status change, then the expiry of the password, then the read-back. *)
Theorem create_order (client : Client) populate conv (w : world) :
  ∃ l, wTrace (resourceUserCreate client populate conv w).1 = wTrace w ++ l
       ∧ StronglySorted le (ranks createRank l).
Proof.
  assert (H : steps (λ _, True) (λ _, True) (ranked createRank 0 5)
                (resourceUserCreate client populate conv)).
  { unfold resourceUserCreate. cbv zeta.
    do 4 leaf_then createRank 0 0 5.
    leaf_then createRank 0 1 5.
    leaf_then createRank 1 2 5.
    leaf_then createRank 2 3 5.
    leaf_then createRank 3 4 5.
    leaf_then createRank 4 5 5.
    apply ranked_leaf. unfold resourceUserRead. repeat rank_step. }
  destruct (H w Logic.I) as (_ & l & E & Hs & _). eauto.
Qed.

Lemma steps_getData {B} (I K : ResourceData → Prop) (P : list event → Prop)
    (f : ResourceData → M B) :
  (∀ d, I d → steps I K P (f d)) → steps I K P (getData ≫= f).
Proof. intros H w Hw. exact (H (wData w) Hw w Hw). Qed.

Lemma readEvent_guarded d e : isReadEvent e = true → followUpGuarded d e.
Proof. destruct e as [[] r |]; cbn; intros H; try exact Logic.I; discriminate. Qed.

(** X12: in every create a follow-up call is issued only when the resource
    asks for it: roles are assigned only when [admin_roles] is not empty,
    groups only when [group_memberships] is not empty, the status is changed
    only to the status of the resource and only when that is SUSPENDED or
    DEPROVISIONED, and the password is expired only when
    [expire_password_on_create] is set. *)
Theorem create_follow_ups_guarded (client : Client) populate conv (w : world) :
  ∃ l, wTrace (resourceUserCreate client populate conv w).1 = wTrace w ++ l
       ∧ Forall (followUpGuarded (wData w)) l.
Proof.
  set (d := wData w). set (Inv := λ d', rdNew d' = rdNew d).
  assert (H : steps Inv (λ _, True) (Forall (followUpGuarded d))
                (resourceUserCreate client populate conv)).
  { unfold resourceUserCreate. cbv zeta.
    do 4 (apply all_bind_last; [solve [repeat all_step] | intros ?]).
    apply steps_getData. intros d' Hd'.
    assert (HS : ∀ k, GetS d' k = GetS d k) by (intros k; unfold GetS; rewrite Hd'; reflexivity).
    assert (HB : ∀ k, GetB d' k = GetB d k) by (intros k; unfold GetB; rewrite Hd'; reflexivity).
    assert (HX : ∀ k, GetSet d' k = GetSet d k) by (intros k; unfold GetSet; rewrite Hd'; reflexivity).
    unfold GetOkSet, GetOkB. cbn [fst snd]. rewrite !HS, !HB, !HX.
    apply all_bind_last.
    { apply all_when_true. intros Hb%bool_decide_eq_true_1. repeat all_step. }
    intros _. apply all_bind_last.
    { apply all_when_true. intros Hb%bool_decide_eq_true_1. repeat all_step. }
    intros _. apply all_bind_last.
    { apply all_when_true. intros Hb. apply all_bind; [| intros ?; apply all_orFail].
      apply all_invoke. intros r. split; [reflexivity |].
      apply orb_true_iff in Hb as [Hb%bool_decide_eq_true_1 | Hb%bool_decide_eq_true_1];
        auto. }
    intros _. apply all_bind_last.
    { apply all_when_true. intros Hb. apply all_bind; [| intros ?; apply all_orFail].
      apply all_invoke. intros r. apply andb_true_iff in Hb as [Hb _]. exact Hb. }
    intros _. eapply steps_weaken;
      [apply resourceUserRead_events | intros; exact Logic.I | intros; exact Logic.I |].
    intros l Hl. eapply Forall_impl; [exact Hl |]. intros e. apply readEvent_guarded. }
  destruct (H w eq_refl) as (_ & l & E & F). eauto.
Qed.

(** ** Update: particular changes *)

Lemma hasProfileChange_false d k :
  hasProfileChange d = false → In k profileKeys → HasChangeS d k = false.
Proof.
  intros H Hk. destruct (HasChangeS d k) eqn:E; [| reflexivity].
  assert (hasProfileChange d = true) by (apply existsb_exists; eauto).
  congruence.
Qed.

Lemma password_is_profile_key : In "password" profileKeys.
Proof. unfold profileKeys. do 32 right. left. reflexivity. Qed.

Lemma recovery_question_is_profile_key : In "recovery_question" profileKeys.
Proof. unfold profileKeys. do 33 right. left. reflexivity. Qed.

Lemma recovery_answer_is_profile_key : In "recovery_answer" profileKeys.
Proof. unfold profileKeys. do 34 right. left. reflexivity. Qed.

(** X13: an update in which none of the profile keys (the password and the
    recovery question and answer among them), the status, the roles, the
    groups, the password hash or the hook changed calls nothing of its own:
    it is the read-back of the user. *)
Theorem update_unchanged (client : Client) populate order (w : world) :
  let d := wData w in
  hasProfileChange d = false →
  HasChangeS d "status" = false →
  HasChangeSet d "admin_roles" = false →
  HasChangeSet d "group_memberships" = false →
  HasChangeBlocks d "password_hash" = false →
  HasChangeS d "password_inline_hook" = false →
  resourceUserUpdate client populate order w = resourceUserRead client w.
Proof.
  intros d Hprofile Hst Hroles Hgroups Hhash Hhook.
  unfold resourceUserUpdate. run. fold d.
  rewrite Hprofile, Hst, Hroles, Hgroups, Hhash, Hhook.
  rewrite (hasProfileChange_false d _ Hprofile password_is_profile_key).
  rewrite (hasProfileChange_false d _ Hprofile recovery_question_is_profile_key).
  rewrite (hasProfileChange_false d _ Hprofile recovery_answer_is_profile_key).
  rewrite !andb_false_r. cbn [orb when failIf]. do 9 run. reflexivity.
Qed.

Lemma update_unchanged_witness :
  let w := Sample2.unchanged in
  let d := wData w in
  (hasProfileChange d = false
   ∧ HasChangeS d "status" = false
   ∧ HasChangeSet d "admin_roles" = false
   ∧ HasChangeSet d "group_memberships" = false
   ∧ HasChangeBlocks d "password_hash" = false
   ∧ HasChangeS d "password_inline_hook" = false)
  ∧ resourceUserUpdate Sample.allOk Sample.profileOf Sample.byElements w
    = resourceUserRead Sample.allOk w.
Proof.
  cbv zeta. split; [repeat split; vm_compute; reflexivity |].
  apply (update_unchanged Sample.allOk Sample.profileOf Sample.byElements Sample2.unchanged);
    vm_compute; reflexivity.
Defined.

(** X14: a password change for a user whose remote status is PROVISIONED is
    rejected right after the user was fetched: nothing is changed remotely
    and the resource is left as it was. *)
Theorem update_provisioned_rejected (client : Client) populate order (w : world) (user : User) :
  let d := wData w in
  let get := GetUser (rdId d) in
  HasChangeS d "password" = true →
  bool_decide (GetS d "status" = userStatusStaged) && HasChangeS d "status" = false →
  client (wTrace w) get = Success user →
  userStatus user = "PROVISIONED" →
  resourceUserUpdate client populate order w
  = ({| wData := d; wTrace := wTrace w ++ [Called get (Success user)] |},
     Err provisionedPasswordError).
Proof.
  intros d get Hpw Hstaged Hget Hprov.
  unfold resourceUserUpdate. run. fold d. rewrite Hstaged, Hpw.
  cbn [when failIf]. run. rewrite run_assoc. run. fold get. rewrite Hget.
  erewrite run_err; [reflexivity |].
  erewrite run_ok by reflexivity. cbv beta.
  rewrite bool_decide_eq_true_2 by exact Hprov. reflexivity.
Qed.

Lemma update_provisioned_rejected_witness :
  let w := Sample.passwordChanged in
  let d := wData w in
  let get := GetUser (rdId d) in
  (HasChangeS d "password" = true
   ∧ bool_decide (GetS d "status" = userStatusStaged) && HasChangeS d "status" = false
   ∧ Sample2.provisioned (wTrace w) get = Success Sample2.provisionedUser
   ∧ userStatus Sample2.provisionedUser = "PROVISIONED")
  ∧ resourceUserUpdate Sample2.provisioned Sample.profileOf Sample.byElements w
    = ({| wData := d;
          wTrace := wTrace w ++ [Called get (Success Sample2.provisionedUser)] |},
       Err provisionedPasswordError).
Proof.
  cbv zeta. split; [repeat split |].
  apply (update_provisioned_rejected Sample2.provisioned Sample.profileOf Sample.byElements
                                     Sample.passwordChanged Sample2.provisionedUser);
    reflexivity.
Defined.

Ltac fetch_or_status :=
  repeat (apply List.Forall_cons; [solve [left; reflexivity | right; reflexivity] |]);
  apply List.Forall_nil.

(** X15: an update of a user whose new status is DEPROVISIONED in which a
    profile key changed always fails, and before the profile is sent: all
    it may have called by then is the fetch of the user and the change of
    the status. *)
Theorem update_deprovisioned_rejected (client : Client) populate order (w : world) :
  let d := wData w in
  GetS d "status" = userStatusDeprovisioned →
  hasProfileChange d = true →
  ∃ l msg,
    (resourceUserUpdate client populate order w).2 = Err msg
    ∧ wTrace (resourceUserUpdate client populate order w).1 = wTrace w ++ l
    ∧ Forall (λ e, isGetUser e = true ∨ isStatusUpdate e = true) l.
Proof.
  intros d Hstatus Hprofile.
  unfold resourceUserUpdate. run. fold d. rewrite Hstatus, Hprofile.
  rewrite (bool_decide_eq_false_2 (userStatusDeprovisioned = userStatusStaged))
    by discriminate.
  rewrite (bool_decide_eq_true_2 (userStatusDeprovisioned = userStatusDeprovisioned))
    by reflexivity.
  cbn [andb failIf]. run.
  destruct (HasChangeS d "password"); cbn [when].
  - rewrite run_assoc. run.
    destruct (client (wTrace w) _) as [user | code err] eqn:E1.
    2: { stop. eexists _, _. split; [reflexivity |].
         split; [reflexivity |]. fetch_or_status. }
    rewrite run_assoc. run.
    destruct (bool_decide (userStatus user = "PROVISIONED")).
    { stop. eexists _, _. split; [reflexivity |].
      split; [reflexivity |]. fetch_or_status. }
    run.
    destruct (HasChangeS d "status"); cbn [when].
    + rewrite run_assoc. run.
      destruct (client (wTrace w ++ _) _) as [[] | code err] eqn:E2.
      2: { stop. eexists _, _. split; [reflexivity |].
           rewrite <- app_assoc. split; [reflexivity |]. fetch_or_status. }
      rewrite run_assoc. do 2 run. stop. eexists _, _. split; [reflexivity |].
      rewrite <- app_assoc. split; [reflexivity |]. fetch_or_status.
    + run. stop. eexists _, _. split; [reflexivity |].
      split; [reflexivity |]. fetch_or_status.
  - run.
    destruct (HasChangeS d "status"); cbn [when].
    + rewrite run_assoc. run.
      destruct (client (wTrace w) _) as [[] | code err] eqn:E2.
      2: { stop. eexists _, _. split; [reflexivity |].
           split; [reflexivity |]. fetch_or_status. }
      rewrite run_assoc. do 2 run. stop. eexists _, _. split; [reflexivity |].
      split; [reflexivity |]. fetch_or_status.
    + run. stop. exists [], deprovisionedUpdateError. split; [reflexivity |].
      rewrite app_nil_r. split; [reflexivity | constructor].
Qed.

Lemma update_deprovisioned_rejected_witness :
  let w := Sample2.deprovisionedEdit in
  let d := wData w in
  (GetS d "status" = userStatusDeprovisioned ∧ hasProfileChange d = true)
  ∧ ∃ l msg,
      (resourceUserUpdate Sample.allOk Sample.profileOf Sample.byElements w).2 = Err msg
      ∧ wTrace (resourceUserUpdate Sample.allOk Sample.profileOf Sample.byElements w).1 = wTrace w ++ l
      ∧ Forall (λ e, isGetUser e = true ∨ isStatusUpdate e = true) l.
Proof.
  cbv zeta. split; [split; vm_compute; reflexivity |].
  apply (update_deprovisioned_rejected Sample.allOk Sample.profileOf Sample.byElements
                                       Sample2.deprovisionedEdit);
    vm_compute; reflexivity.
Defined.

(** X16: an update that completes, in which the password changed and no
    [old_password] is supplied (and the status, roles, groups, hash, hook
    and recovery question and answer did not change), sets the password by
    an update-user call that carries the new password as its only content,
    after the fetch of the user and the update-user call for the profile; no
    change-password call is issued. *)
Theorem update_password_reset (client : Client) populate order (w : world) :
  let d := wData w in
  let id := rdId d in
  let profileOnly :=
    {| userId := EmptyString; userStatus := EmptyString;
       userProfile := Some (populate d); userCredentials := None |} in
  let passwordOnly :=
    {| userId := EmptyString; userStatus := EmptyString; userProfile := None;
       userCredentials :=
         Some {| Password := Some {| Hash := None; Hook := None;
                                     Value := GetS d "password" |};
                 RecoveryQuestion := None |} |} in
  HasChangeS d "password" = true →
  GetS d "old_password" = EmptyString →
  HasChangeS d "status" = false →
  HasChangeSet d "admin_roles" = false →
  HasChangeSet d "group_memberships" = false →
  HasChangeBlocks d "password_hash" = false →
  HasChangeS d "password_inline_hook" = false →
  HasChangeS d "recovery_question" = false →
  HasChangeS d "recovery_answer" = false →
  (resourceUserUpdate client populate order w).2 = Ok tt →
  ∃ r1 r2 r3 lread,
    wTrace (resourceUserUpdate client populate order w).1
    = wTrace w ++ [ Called (GetUser id) r1;
                    Called (UpdateUser id profileOnly) r2;
                    Called (UpdateUser id passwordOnly) r3 ] ++ lread
    ∧ Forall (λ e, isReadEvent e = true) lread.
Proof.
  intros d id profileOnly passwordOnly Hpw Hold Hst Hroles Hgroups Hhash Hhook Hq Ha.
  unfold resourceUserUpdate. run. fold d.
  rewrite Hpw, Hst, Hroles, Hgroups, Hhash, Hhook, Hq, Ha.
  rewrite (hasProfileChange_password d Hpw), andb_false_r, andb_true_r.
  cbn [orb when failIf]. run. rewrite run_assoc. run.
  destruct (client (wTrace w) _) as [user | code err] eqn:E1; [| stop; discriminate].
  rewrite run_assoc. run.
  destruct (bool_decide (userStatus user = "PROVISIONED")); [stop; discriminate |].
  do 2 run.
  destruct (bool_decide (GetS d "status" = userStatusDeprovisioned));
    cbn [andb]; [stop; discriminate |].
  run. rewrite run_assoc. run. rewrite run_assoc. run.
  fold d id profileOnly.
  destruct (client (wTrace w ++ _) (UpdateUser _ _)) as [[] | code err] eqn:E2;
    [| stop; discriminate].
  do 3 run. rewrite run_assoc. run.
  unfold GetChangeS, GetOkS. fold d.
  rewrite Hold, (bool_decide_eq_false_2 (EmptyString ≠ EmptyString))
    by (intros H; apply H; reflexivity).
  cbn [when negb]. rewrite run_assoc. run. rewrite run_assoc. run. fold id.
  change (getString (rdNew d) "password") with (GetS d "password").
  fold passwordOnly.
  destruct (client ((wTrace w ++ _) ++ _) (UpdateUser _ passwordOnly))
    as [[] | code err] eqn:E3; [| stop; discriminate].
  do 2 run. intros _.
  match goal with
  | |- context [resourceUserRead client ?w1] =>
      destruct (resourceUserRead_events client w1 Logic.I) as (_ & lread & E & F)
  end.
  cbn [wTrace] in E.
  exists (Success user), (Success tt), (Success tt), lread.
  split; [| exact F]. rewrite E, <- !app_assoc. reflexivity.
Qed.

Lemma update_password_reset_witness :
  let w := Sample2.passwordReset in
  let d := wData w in
  let id := rdId d in
  let profileOnly :=
    {| userId := EmptyString; userStatus := EmptyString;
       userProfile := Some (Sample.profileOf d); userCredentials := None |} in
  let passwordOnly :=
    {| userId := EmptyString; userStatus := EmptyString; userProfile := None;
       userCredentials :=
         Some {| Password := Some {| Hash := None; Hook := None;
                                     Value := GetS d "password" |};
                 RecoveryQuestion := None |} |} in
  (HasChangeS d "password" = true
   ∧ GetS d "old_password" = EmptyString
   ∧ HasChangeS d "status" = false
   ∧ HasChangeSet d "admin_roles" = false
   ∧ HasChangeSet d "group_memberships" = false
   ∧ HasChangeBlocks d "password_hash" = false
   ∧ HasChangeS d "password_inline_hook" = false
   ∧ HasChangeS d "recovery_question" = false
   ∧ HasChangeS d "recovery_answer" = false
   ∧ (resourceUserUpdate Sample.allOk Sample.profileOf Sample.byElements w).2 = Ok tt)
  ∧ ∃ r1 r2 r3 lread,
      wTrace (resourceUserUpdate Sample.allOk Sample.profileOf Sample.byElements w).1
      = wTrace w ++ [ Called (GetUser id) r1;
                      Called (UpdateUser id profileOnly) r2;
                      Called (UpdateUser id passwordOnly) r3 ] ++ lread
      ∧ Forall (λ e, isReadEvent e = true) lread.
Proof.
  cbv zeta. split.
  - repeat split; vm_compute; reflexivity.
  - apply (update_password_reset Sample.allOk Sample.profileOf Sample.byElements Sample2.passwordReset);
      vm_compute; reflexivity.
Defined.

Lemma hasProfileChange_recovery d :
  HasChangeS d "recovery_question" || HasChangeS d "recovery_answer" = true →
  hasProfileChange d = true.
Proof.
  intros H. apply existsb_exists. apply orb_true_iff in H as [H | H].
  - exists "recovery_question". split; [apply recovery_question_is_profile_key | exact H].
  - exists "recovery_answer". split; [apply recovery_answer_is_profile_key | exact H].
Qed.

(** X17: an update that completes, in which the recovery question or the
    recovery answer changed (and the password, status, roles, groups, hash
    and hook did not), sends the profile, as both are profile keys, and then
    one change-recovery-question call that carries the question and the
    answer together, with the current password, whichever of the two
    changed. *)
Theorem update_recovery_question (client : Client) populate order (w : world) :
  let d := wData w in
  let id := rdId d in
  let profileOnly :=
    {| userId := EmptyString; userStatus := EmptyString;
       userProfile := Some (populate d); userCredentials := None |} in
  let nuc :=
    {| Password := Some {| Hash := None; Hook := None; Value := GetS d "password" |};
       RecoveryQuestion := Some {| Question := GetS d "recovery_question";
                                   Answer := GetS d "recovery_answer" |} |} in
  HasChangeS d "recovery_question" || HasChangeS d "recovery_answer" = true →
  HasChangeS d "password" = false →
  HasChangeS d "status" = false →
  HasChangeSet d "admin_roles" = false →
  HasChangeSet d "group_memberships" = false →
  HasChangeBlocks d "password_hash" = false →
  HasChangeS d "password_inline_hook" = false →
  (resourceUserUpdate client populate order w).2 = Ok tt →
  ∃ r1 r2 lread,
    wTrace (resourceUserUpdate client populate order w).1
    = wTrace w ++ [ Called (UpdateUser id profileOnly) r1;
                    Called (ChangeRecoveryQuestion id nuc) r2 ] ++ lread
    ∧ Forall (λ e, isReadEvent e = true) lread.
Proof.
  intros d id profileOnly nuc Hrec Hpw Hst Hroles Hgroups Hhash Hhook.
  unfold resourceUserUpdate. run. fold d.
  rewrite Hrec, Hpw, Hst, Hroles, Hgroups, Hhash, Hhook.
  rewrite (hasProfileChange_recovery d Hrec), andb_false_r, andb_true_r.
  cbn [orb when failIf]. do 3 run.
  destruct (bool_decide (GetS d "status" = userStatusDeprovisioned));
    cbn [andb]; [stop; discriminate |].
  run. rewrite run_assoc. run. rewrite run_assoc. run.
  fold d id profileOnly.
  destruct (client (wTrace w) (UpdateUser _ _)) as [[] | code err] eqn:E1;
    [| stop; discriminate].
  do 4 run. rewrite run_assoc. run. rewrite run_assoc. run. fold d id nuc.
  destruct (client (wTrace w ++ _) (ChangeRecoveryQuestion _ _))
    as [[] | code err] eqn:E2; [| stop; discriminate].
  run. intros _.
  match goal with
  | |- context [resourceUserRead client ?w1] =>
      destruct (resourceUserRead_events client w1 Logic.I) as (_ & lread & E & F)
  end.
  cbn [wTrace] in E.
  exists (Success tt), (Success tt), lread.
  split; [| exact F]. rewrite E, <- !app_assoc. reflexivity.
Qed.

Lemma update_recovery_question_witness :
  let w := Sample2.answerChanged in
  let d := wData w in
  let id := rdId d in
  let profileOnly :=
    {| userId := EmptyString; userStatus := EmptyString;
       userProfile := Some (Sample.profileOf d); userCredentials := None |} in
  let nuc :=
    {| Password := Some {| Hash := None; Hook := None; Value := GetS d "password" |};
       RecoveryQuestion := Some {| Question := GetS d "recovery_question";
                                   Answer := GetS d "recovery_answer" |} |} in
  (HasChangeS d "recovery_question" || HasChangeS d "recovery_answer" = true
   ∧ HasChangeS d "password" = false
   ∧ HasChangeS d "status" = false
   ∧ HasChangeSet d "admin_roles" = false
   ∧ HasChangeSet d "group_memberships" = false
   ∧ HasChangeBlocks d "password_hash" = false
   ∧ HasChangeS d "password_inline_hook" = false
   ∧ (resourceUserUpdate Sample.allOk Sample.profileOf Sample.byElements w).2 = Ok tt)
  ∧ ∃ r1 r2 lread,
      wTrace (resourceUserUpdate Sample.allOk Sample.profileOf Sample.byElements w).1
      = wTrace w ++ [ Called (UpdateUser id profileOnly) r1;
                      Called (ChangeRecoveryQuestion id nuc) r2 ] ++ lread
      ∧ Forall (λ e, isReadEvent e = true) lread.
Proof.
  cbv zeta. split.
  - repeat split; vm_compute; reflexivity.
  - apply (update_recovery_question Sample.allOk Sample.profileOf Sample.byElements Sample2.answerChanged);
      vm_compute; reflexivity.
Defined.

(** X18: an update in which only the group memberships changed first adds
    the user to the groups that are new (new minus prior) and then, only if
    that succeeded, removes it from the groups that are gone (prior minus
    new); the read-back follows only if both succeeded. Each call is given
    the list in which [schema.Set.List()] lists the difference: whatever that
    order is, the groups added are those of the new set that are not in the
    prior set, the groups removed are those of the prior set that are not in
    the new set, and neither list repeats a group. *)
Theorem update_groups (client : Client) populate order (w : world) :
  let d := wData w in
  let id := rdId d in
  let old := getSet (rdState d) "group_memberships" in
  let new := getSet (rdNew d) "group_memberships" in
  let groupsToAdd := setList order (new ∖ old) in
  let groupsToRemove := setList order (old ∖ new) in
  let add := addUserToGroups id groupsToAdd in
  let remove := removeUserFromGroups id groupsToRemove in
  let w1 := wTrace w ++ [Called add (client (wTrace w) add)] in
  let w2 := w1 ++ [Called remove (client w1 remove)] in
  HasChangeSet d "group_memberships" = true →
  hasProfileChange d = false →
  HasChangeS d "status" = false →
  HasChangeSet d "admin_roles" = false →
  HasChangeBlocks d "password_hash" = false →
  HasChangeS d "password_inline_hook" = false →
  (∀ g, g ∈ groupsToAdd ↔ g ∈ new ∧ g ∉ old)
  ∧ (∀ g, g ∈ groupsToRemove ↔ g ∈ old ∧ g ∉ new)
  ∧ NoDup groupsToAdd ∧ NoDup groupsToRemove
  ∧ resourceUserUpdate client populate order w
    = match client (wTrace w) add with
      | Failure _ err => ({| wData := d; wTrace := w1 |}, Err err)
      | Success _ =>
          match client w1 remove with
          | Failure _ err => ({| wData := d; wTrace := w2 |}, Err err)
          | Success _ => resourceUserRead client {| wData := d; wTrace := w2 |}
          end
      end.
Proof.
  intros d id old new groupsToAdd groupsToRemove add remove w1 w2
         Hgroups Hprofile Hst Hroles Hhash Hhook.
  split; [| split; [| split; [| split]]].
  - intros g. unfold groupsToAdd. rewrite (setList_members order).
    rewrite elem_of_elements. apply elem_of_difference.
  - intros g. unfold groupsToRemove. rewrite (setList_members order).
    rewrite elem_of_elements. apply elem_of_difference.
  - unfold groupsToAdd. rewrite (setList_members order). apply NoDup_elements.
  - unfold groupsToRemove. rewrite (setList_members order). apply NoDup_elements.
  - unfold resourceUserUpdate. run. fold d.
    rewrite Hprofile, Hst, Hroles, Hgroups, Hhash, Hhook.
    rewrite (hasProfileChange_false d _ Hprofile password_is_profile_key).
    rewrite (hasProfileChange_false d _ Hprofile recovery_question_is_profile_key).
    rewrite (hasProfileChange_false d _ Hprofile recovery_answer_is_profile_key).
    rewrite !andb_false_r. cbn [orb when failIf]. do 6 run.
    rewrite run_assoc. run. unfold GetChangeSet. fold d id old new.
    cbv beta iota zeta. rewrite run_assoc. run.
    fold groupsToAdd groupsToRemove. fold add. fold w1.
    destruct (client (wTrace w) add) as [[] | code err]; [| stop; reflexivity].
    rewrite run_assoc. run. rewrite run_assoc. run. fold remove w2.
    destruct (client w1 remove) as [[] | code err]; [| stop; reflexivity].
    do 3 run. reflexivity.
Qed.

(** Five groups against three, listed backwards. *)
Lemma update_groups_witness :
  let w := Sample2.groupsReplaced in
  let order := Sample.backwards in
  let d := wData w in
  let id := rdId d in
  let old := getSet (rdState d) "group_memberships" in
  let new := getSet (rdNew d) "group_memberships" in
  let groupsToAdd := setList order (new ∖ old) in
  let groupsToRemove := setList order (old ∖ new) in
  let add := addUserToGroups id groupsToAdd in
  let remove := removeUserFromGroups id groupsToRemove in
  let w1 := wTrace w ++ [Called add (Sample.allOk (wTrace w) add)] in
  let w2 := w1 ++ [Called remove (Sample.allOk w1 remove)] in
  (HasChangeSet d "group_memberships" = true
   ∧ hasProfileChange d = false
   ∧ HasChangeS d "status" = false
   ∧ HasChangeSet d "admin_roles" = false
   ∧ HasChangeBlocks d "password_hash" = false
   ∧ HasChangeS d "password_inline_hook" = false)
  ∧ (∀ g, g ∈ groupsToAdd ↔ g ∈ new ∧ g ∉ old)
  ∧ (∀ g, g ∈ groupsToRemove ↔ g ∈ old ∧ g ∉ new)
  ∧ NoDup groupsToAdd ∧ NoDup groupsToRemove
  ∧ resourceUserUpdate Sample.allOk Sample.profileOf order w
    = match Sample.allOk (wTrace w) add with
      | Failure _ err => ({| wData := d; wTrace := w1 |}, Err err)
      | Success _ =>
          match Sample.allOk w1 remove with
          | Failure _ err => ({| wData := d; wTrace := w2 |}, Err err)
          | Success _ => resourceUserRead Sample.allOk {| wData := d; wTrace := w2 |}
          end
      end.
Proof.
  cbv zeta. split.
  - repeat split; vm_compute; reflexivity.
  - apply (update_groups Sample.allOk Sample.profileOf Sample.backwards
             Sample2.groupsReplaced);
      vm_compute; reflexivity.
Defined.

(** The lists of that run in the two sample orders. *)
Example sample_groups_replaced :
  let w := Sample2.groupsReplaced in
  let old := getSet (rdState (wData w)) "group_memberships" in
  let new := getSet (rdNew (wData w)) "group_memberships" in
  setList Sample.byElements (new ∖ old) = reverse (setList Sample.backwards (new ∖ old))
  ∧ setList Sample.backwards (new ∖ old) ≡ₚ ["c"; "g10"; "g2"; "zz"]
  ∧ setList Sample.backwards (old ∖ new) ≡ₚ ["g1"; "g3"].
Proof.
  cbv zeta. split; [vm_compute; reflexivity |].
  split; vm_compute; apply (bool_decide_unpack _); vm_compute; exact Logic.I.
Qed.

(** The run of the sample change of groups, event by event. *)
Example sample_groups_changed :
  wTrace (resourceUserUpdate Sample.allOk Sample.profileOf Sample.byElements Sample2.groupsChanged).1
  = [ Called (addUserToGroups "00u1" ["g2"]) (Success tt);
      Called (removeUserFromGroups "00u1" ["g1"]) (Success tt);
      Called (GetUser "00u1") (Success Sample.remoteUser);
      Called (setNonPrimitives Sample.remoteUser) (Success tt);
      Called (setAdminRoles "00u1") (Success tt);
      Called (setGroupUserMemberships "00u1") (Success tt) ].
Proof. vm_compute. reflexivity. Qed.

(** X19: an update in which only the status changed (to a status other than
    STAGED) changes the status first; when that fails the update fails with
    that error after the words of the source and nothing else is called;
    when it succeeds the status is stored in the resource and the read-back
    follows. *)
Theorem update_status_only (client : Client) populate order (w : world) :
  let d := wData w in
  let status := GetS d "status" in
  let change := updateUserStatus (rdId d) status in
  let w1 := wTrace w ++ [Called change (client (wTrace w) change)] in
  HasChangeS d "status" = true →
  status ≠ userStatusStaged →
  hasProfileChange d = false →
  HasChangeSet d "admin_roles" = false →
  HasChangeSet d "group_memberships" = false →
  HasChangeBlocks d "password_hash" = false →
  HasChangeS d "password_inline_hook" = false →
  resourceUserUpdate client populate order w
  = match client (wTrace w) change with
    | Failure _ err =>
        ({| wData := d; wTrace := w1 |}, Err ("failed to update user status: " +:+ err))
    | Success _ =>
        resourceUserRead client {| wData := SetS "status" status d; wTrace := w1 |}
    end.
Proof.
  intros d status change w1 Hst Hstaged Hprofile Hroles Hgroups Hhash Hhook.
  unfold resourceUserUpdate. run. fold d status.
  rewrite Hprofile, Hst, Hroles, Hgroups, Hhash, Hhook.
  rewrite (hasProfileChange_false d _ Hprofile password_is_profile_key).
  rewrite (hasProfileChange_false d _ Hprofile recovery_question_is_profile_key).
  rewrite (hasProfileChange_false d _ Hprofile recovery_answer_is_profile_key).
  rewrite (bool_decide_eq_false_2 _ Hstaged), !andb_false_r.
  cbn [andb orb when failIf]. do 2 run. rewrite run_assoc. run. fold change w1.
  destruct (client (wTrace w) change) as [[] | code err]; [| stop; reflexivity].
  rewrite run_assoc. do 8 run. reflexivity.
Qed.

Lemma update_status_only_witness :
  let w := Sample2.suspended in
  let d := wData w in
  let status := GetS d "status" in
  let change := updateUserStatus (rdId d) status in
  let w1 := wTrace w ++ [Called change (Sample.allOk (wTrace w) change)] in
  (HasChangeS d "status" = true
   ∧ status ≠ userStatusStaged
   ∧ hasProfileChange d = false
   ∧ HasChangeSet d "admin_roles" = false
   ∧ HasChangeSet d "group_memberships" = false
   ∧ HasChangeBlocks d "password_hash" = false
   ∧ HasChangeS d "password_inline_hook" = false)
  ∧ resourceUserUpdate Sample.allOk Sample.profileOf Sample.byElements w
    = match Sample.allOk (wTrace w) change with
      | Failure _ err =>
          ({| wData := d; wTrace := w1 |},
           Err ("failed to update user status: " +:+ err))
      | Success _ =>
          resourceUserRead Sample.allOk
            {| wData := SetS "status" status d; wTrace := w1 |}
      end.
Proof.
  cbv zeta. split.
  - repeat split; try discriminate; vm_compute; reflexivity.
  - apply (update_status_only Sample.allOk Sample.profileOf Sample.byElements Sample2.suspended);
      try discriminate; vm_compute; reflexivity.
Defined.

(** ** Update: the order of the steps, and what an update never does *)

(** The loop over the remote roles issues removal calls only. *)
Lemma removeRoles_all (I : ResourceData → Prop) (φ : event → Prop)
    client id toRemove roles :
  (∀ role r, φ (Called (RemoveRoleFromUser id role) r)) →
  steps I I (Forall φ) (removeRoles client id toRemove roles).
Proof.
  intros H. induction roles as [| role rest IH]; cbn [removeRoles].
  - apply all_ret.
  - apply all_bind; [| intros _; exact IH].
    apply all_when. apply all_bind; [apply all_invoke; apply H |].
    intros r. destruct (suppressErrorOn404 r); [apply all_fail | apply all_ret].
Qed.

(** X20: the calls of every update come in the order of the source: the
    change of the status, the update-user call for the profile, the listing,
    the removals and the addition of roles, the additions to and the
    removals from groups, the change of the password (by either call), the
    change of the recovery question, and the helpers of the read-back. *)
Theorem update_order (client : Client) populate order (w : world) :
  ∃ l, wTrace (resourceUserUpdate client populate order w).1 = wTrace w ++ l
       ∧ StronglySorted le (ranks updateRank l).
Proof.
  assert (H : steps (λ _, True) (λ _, True) (ranked updateRank 0 10)
                (resourceUserUpdate client populate order)).
  { unfold resourceUserUpdate, GetChangeSet, GetChangeS, GetOkS.
    cbv beta iota zeta.
    do 2 leaf_then updateRank 0 0 10.
    leaf_then updateRank 0 1 10.
    leaf_then updateRank 1 1 10.
    leaf_then updateRank 1 2 10.
    leaf_then updateRank 2 3 10.
    apply (ranked_bind updateRank _ 3 5 6 10); [| intros _ | lia | lia | lia].
    { apply ranked_when.
      do 2 leaf_then updateRank 3 3 5.
      leaf_then updateRank 3 4 5.
      apply (ranked_bind updateRank _ 4 4 5 5); [| intros _ | lia | lia | lia].
      - apply ranked_leaf. apply removeRoles_all. intros role r. reflexivity.
      - apply ranked_leaf. repeat rank_step. }
    apply (ranked_bind updateRank _ 6 7 8 10); [| intros _ | lia | lia | lia].
    { apply ranked_when.
      do 2 leaf_then updateRank 6 6 7.
      leaf_then updateRank 6 7 7.
      apply ranked_leaf. repeat rank_step. }
    leaf_then updateRank 8 9 10.
    leaf_then updateRank 9 10 10.
    apply ranked_leaf. unfold resourceUserRead. repeat rank_step. }
  destruct (H w Logic.I) as (_ & l & E & Hs & _). eauto.
Qed.

(** One step of a proof about the calls of an update; the loop over the
    remote roles is a step of its own. *)
Ltac update_step client :=
  first
    [ apply removeRoles_all; intros ? ?; done
    | all_step ].

(** X21: an update never creates or deletes a user, never expires a
    password and never uses the group assignment of the create path; the
    only identifier it ever writes is the empty one, when the read-back
    finds the user gone. *)
Theorem update_never (client : Client) populate order (w : world) :
  ∃ l, wTrace (resourceUserUpdate client populate order w).1 = wTrace w ++ l
       ∧ Forall (λ e, foreignToUpdate e = false
                      ∧ (isIdSet e = true → e = IdSet EmptyString)) l.
Proof.
  assert (H : emits (Forall (λ e, foreignToUpdate e = false
                                  ∧ (isIdSet e = true → e = IdSet EmptyString)))
                (resourceUserUpdate client populate order)).
  { unfold emits, resourceUserUpdate, resourceUserRead. cbv zeta.
    repeat update_step client. }
  destruct (H w Logic.I) as (_ & l & E & F). eauto.
Qed.

(** Storing the status leaves the credentials of the resource as they are. *)
Lemma sameCredentials_SetS d0 d v :
  sameCredentials d0 d → sameCredentials d0 (SetS "status" v d).
Proof.
  intros (Hh & Hb). split; [| exact Hb].
  rewrite <- Hh. unfold GetS, getString, SetS. cbn.
  rewrite lookup_insert_ne by discriminate. reflexivity.
Qed.

(** X22: the password credential of every update-user call of an update
    carries a hash, a hook or neither, never both; and the update-user call
    that carries the profile is sent the hook alone when the hook changed
    and is not empty, whether or not the hash changed, otherwise the hash
    alone when the hash changed, and otherwise no credentials. *)
Theorem update_hash_or_hook (client : Client) populate order (w : world) :
  ∃ l, wTrace (resourceUserUpdate client populate order w).1 = wTrace w ++ l
       ∧ Forall (λ e, hashOrHook e ∧ credentialsOfChange (wData w) e) l.
Proof.
  set (d := wData w).
  unfold resourceUserUpdate. run. fold d.
  match goal with
  | |- context [wTrace (?m w).1] =>
      assert (H : steps (sameCredentials d) (λ _, True)
                    (Forall (λ e, hashOrHook e ∧ credentialsOfChange d e)) m)
  end.
  { do 2 (apply all_bind_last; [solve [repeat update_step client] | intros ?]).
    apply all_bind_last; [| intros ?].
    { apply all_when. apply all_bind; [repeat all_step | intros ?].
      apply all_bind; [repeat all_step | intros ?].
      apply all_setString. intros ? H. apply sameCredentials_SetS. exact H. }
    apply all_bind_last; [solve [repeat update_step client] | intros ?].
    apply all_bind_last; [| intros ?].
    { apply all_when. apply all_getData_bind. intros d' (Hh & Hb).
      apply all_bind; [| intros ?; apply all_orFail].
      apply all_invoke. rewrite Hh, Hb.
      destruct (HasChangeS d "password_inline_hook") eqn:Hhook;
        destruct (bool_decide (GetS d "password_inline_hook" ≠ EmptyString)) eqn:Hne;
        destruct (HasChangeBlocks d "password_hash") eqn:Hhash;
        cbn [andb]; intros r; (split; [cbn; auto |]);
        cbn; intros _; rewrite ?Hhook, ?Hhash;
        try apply bool_decide_eq_true_1 in Hne;
        try apply bool_decide_eq_false_1 in Hne.
      all: clear r; split; [| split]; try tauto; try (intros [? ?]; congruence);
        try (intros; congruence); try (intros; reflexivity).
    }
    unfold GetChangeSet, GetChangeS, GetOkS. cbv beta iota zeta.
    do 4 (apply all_bind_last;
          [ solve [ repeat first
              [ apply all_invoke; intros ?; split;
                [ cbn; solve [exact Logic.I | left; reflexivity]
                | cbn; solve [exact Logic.I
                             | intros Hp; exfalso; apply Hp; reflexivity] ]
              | update_step client ] ]
          | intros ? ]).
    eapply steps_weaken;
      [apply resourceUserRead_events | intros; exact Logic.I | intros; exact Logic.I |].
    intros l Hl. eapply Forall_impl; [exact Hl |].
    intros e He. destruct e as [[] r |]; cbn in He |- *;
      try discriminate; split; exact Logic.I. }
  destruct (H w) as (_ & l & E & F); [split; reflexivity | eauto].
Qed.

(** An update in which the hash and the hook both changed sends the hook
    alone. *)
Example sample_hash_and_hook :
  let w := Sample3.hashAndHookChanged in
  HasChangeBlocks (wData w) "password_hash" = true
  ∧ HasChangeS (wData w) "password_inline_hook" = true
  ∧ wTrace (resourceUserUpdate Sample.allOk Sample.profileOf Sample.byElements w).1
    = [ Called (UpdateUser "00u1"
                  {| userId := EmptyString; userStatus := EmptyString;
                     userProfile := Some {[ "login" := "a@b.com" ]};
                     userCredentials :=
                       Some {| Password :=
                                 Some {| Hash := None;
                                         Hook := Some {| HookType := "default" |};
                                         Value := EmptyString |};
                               RecoveryQuestion := None |} |})
               (Success tt);
        Called (GetUser "00u1") (Success Sample.remoteUser);
        Called (setNonPrimitives Sample.remoteUser) (Success tt);
        Called (setAdminRoles "00u1") (Success tt) ].
Proof. cbv zeta. repeat split; vm_compute; reflexivity. Qed.

Lemma sameStrings_SetS d0 d v : sameStrings d0 d → sameStrings d0 (SetS "status" v d).
Proof.
  intros (Hid & Hs). split; [exact Hid |].
  intros k Hk. rewrite <- (Hs k Hk). unfold GetS, getString, SetS. cbn.
  rewrite lookup_insert_ne by congruence. reflexivity.
Qed.

Lemma readEvent_carriesOldPassword d e : isReadEvent e = true → carriesOldPassword d e.
Proof. destruct e as [[] r |]; cbn; intros H; try exact Logic.I; discriminate. Qed.

(** X23: in every update, a change-password call is issued only when
    [old_password] is supplied, for the user of the resource, and it carries
    [old_password] as the old value and the new [password] as the new one:
    the password held in the prior state is never sent as the old
    password. *)
Theorem update_change_password_values (client : Client) populate order (w : world) :
  ∃ l, wTrace (resourceUserUpdate client populate order w).1 = wTrace w ++ l
       ∧ Forall (carriesOldPassword (wData w)) l.
Proof.
  set (d := wData w).
  assert (H : steps (sameStrings d) (λ _, True) (Forall (carriesOldPassword d))
                (resourceUserUpdate client populate order)).
  { unfold resourceUserUpdate, GetChangeS, GetOkS. cbv beta iota zeta.
    do 3 (apply all_bind_last; [solve [repeat update_step client] | intros ?]).
    apply all_bind_last; [| intros ?].
    { apply all_when. apply all_bind; [repeat all_step | intros ?].
      apply all_bind; [repeat all_step | intros ?].
      apply all_setString. intros ? H. apply sameStrings_SetS. exact H. }
    do 4 (apply all_bind_last; [solve [repeat update_step client] | intros ?]).
    apply all_bind_last; [| intros ?].
    { apply all_when. apply all_getData_bind. intros d' (Hid & Hs).
      apply all_bind; [| intros ?; repeat all_step].
      apply all_when_true. intros Hold%bool_decide_eq_true_1.
      apply all_bind; [| intros ?; apply all_orFail].
      apply all_invoke. intros r. cbn.
      assert (Hop : GetS d' "old_password" = GetS d "old_password")
        by (apply Hs; discriminate).
      rewrite (bool_decide_eq_true_2 _ Hold). cbn.
      split; [exact Hid |]. split; [congruence |]. split; [exact Hop |].
      apply (Hs "password"). discriminate. }
    apply all_bind_last; [solve [repeat all_step] | intros ?].
    eapply steps_weaken;
      [apply resourceUserRead_events | intros; exact Logic.I | intros; exact Logic.I |].
    intros l Hl. eapply Forall_impl; [exact Hl |].
    intros e. apply readEvent_carriesOldPassword. }
  destruct (H w) as (_ & l & E & F); [split; [reflexivity | reflexivity] | eauto].
Qed.
